(** * Shipment confirmation: the order pipeline of [src/services]

    A shallow embedding of [prestashop_service.py] and [order_processor.py]
    (with the parts of [email_service.py] and [notifications.py] the
    orchestrator calls), and the properties of the order pipeline proved
    on it.

    - Values decoded from the shop's XML are [pyval]: [None], [str], [dict]
      and [list], which is what [xmltodict.parse] builds.  A [dict] is an
      association list in insertion order, as Python keeps it.
    - A Python [str] is a [string] whose characters are the code points
      below 256; [strip] removes Python's white space in that range.
    - Code that raises returns [Raise e]; the state reached when the
      exception left is kept, as Python keeps every mutation done so far.
    - The remote systems (shop API, template service, SMTP, notification
      channels, clock) are a [world] of answers; every answer may depend on
      the whole history of calls made before it.
    - The channels of [notifications.py] and the addressing of the shipment
      mail of [email_service.py], which the run only sees through their
      results, are modelled apart in the modules [NotificationManager] and
      [EmailService]. *)

From Stdlib Require Import List String Ascii Bool Arith Lia.
Import ListNotations.
Open Scope string_scope.

(** ** Python values *)

#[warnings="-register-all"]
Inductive pyval : Type :=
| PNone
| PStr (s : string)
| PDict (d : list (string * pyval))
| PList (l : list pyval).

Inductive exn : Type :=
| AttributeError (tyname attr : string)
| KeyError (key : string).

Inductive result (A : Type) : Type :=
| Ok (a : A)
| Raise (e : exn).
Arguments Ok {A} a.
Arguments Raise {A} e.

(** [type(v).__name__] *)
Definition type_name (v : pyval) : string :=
  match v with
  | PNone => "NoneType"
  | PStr _ => "str"
  | PDict _ => "dict"
  | PList _ => "list"
  end.

(** [str(e)] for the two exceptions of the model. *)
Definition exn_str (e : exn) : string :=
  match e with
  | AttributeError ty attr =>
      "'" ++ ty ++ "' object has no attribute '" ++ attr ++ "'"
  | KeyError k => "'" ++ k ++ "'"
  end.

(** [bool(v)]: [None], the empty string, the empty dict and the empty list
    are false. *)
Definition truthy (v : pyval) : bool :=
  match v with
  | PNone => false
  | PStr s => negb (s =? "")
  | PDict d => match d with [] => false | _ => true end
  | PList l => match l with [] => false | _ => true end
  end.

Definition is_dict (v : pyval) : bool :=
  match v with PDict _ => true | _ => false end.

Definition is_list (v : pyval) : bool :=
  match v with PList _ => true | _ => false end.

(** *** Dictionaries *)

Fixpoint dict_get (k : string) (d : list (string * pyval)) : option pyval :=
  match d with
  | [] => None
  | (k', v) :: r => if k =? k' then Some v else dict_get k r
  end.

(** [d[k] = v]: an existing key keeps its position, a new key goes last. *)
Fixpoint dict_set (k : string) (v : pyval) (d : list (string * pyval))
  : list (string * pyval) :=
  match d with
  | [] => [(k, v)]
  | (k', v') :: r =>
      if k =? k' then (k, v) :: r else (k', v') :: dict_set k v r
  end.

Definition dict_mem (k : string) (d : list (string * pyval)) : bool :=
  match dict_get k d with Some _ => true | None => false end.

(** [v.get(k, default)]; only a dict has [get]. *)
Definition py_get (v : pyval) (k : string) (default : pyval) : result pyval :=
  match v with
  | PDict d =>
      Ok (match dict_get k d with Some x => x | None => default end)
  | _ => Raise (AttributeError (type_name v) "get")
  end.

(** [d[k]] on a dict. *)
Definition dict_item (d : list (string * pyval)) (k : string) : result pyval :=
  match dict_get k d with
  | Some x => Ok x
  | None => Raise (KeyError k)
  end.

(** *** Strings *)

(** Python's white space among the code points below 256:
    TAB, LF, VT, FF, CR, FS, GS, RS, US, space, NEL and NBSP. *)
Definition is_space (c : ascii) : bool :=
  let n := nat_of_ascii c in
  (((9 <=? n) && (n <=? 13)) || ((28 <=? n) && (n <=? 32))
   || (n =? 133) || (n =? 160))%nat.

Fixpoint lstrip (s : string) : string :=
  match s with
  | EmptyString => EmptyString
  | String c r => if is_space c then lstrip r else s
  end.

Fixpoint string_rev (s : string) : string :=
  match s with
  | EmptyString => EmptyString
  | String c r => string_rev r ++ String c EmptyString
  end.

Definition rstrip (s : string) : string :=
  string_rev (lstrip (string_rev s)).

(** [s.strip()] *)
Definition strip (s : string) : string := rstrip (lstrip s).

(** [v.strip()]; only a str has [strip]. *)
Definition py_strip (v : pyval) : result string :=
  match v with
  | PStr s => Ok (strip s)
  | _ => Raise (AttributeError (type_name v) "strip")
  end.

(** ** Logging, statistics, calls to the outside *)

Inductive log_level : Type := DEBUG | INFO | WARNING | ERROR.

(** A log record: its level and the fixed text of the message, which only
    names the line (the interpolated values are left out). *)
Record log_record : Type := LogRecord {
  level : log_level;
  text : string
}.

(** An entry of [stats["errors"]]. *)
Record error_entry : Type := ErrorEntry {
  order_id : pyval;
  error : string
}.

(** [OrderProcessor.stats] *)
Record statistics : Type := Statistics {
  orders_processed : nat;
  orders_success : nat;
  orders_failed : nat;
  errors : list error_entry
}.

(** What the shop answers to the query for pending orders. *)
Inductive orders_response : Type :=
| TransportError                  (* [requests] raised, or an HTTP error status *)
| EmptyBody                       (* empty or blank response text *)
| Unparsable                      (* [xmltodict.parse] raised *)
| Parsed (data : pyval).          (* the decoded document *)

(** The three figures of the summary message (its text is their rendering,
    with the success rate computed from them). *)
Record summary_message : Type := SummaryMessage {
  total_line : nat;
  success_line : nat;
  failed_line : nat
}.

(** [error_details] of the warning notification. *)
Record warning_details : Type := WarningDetails {
  total_orders : nat;
  successful : nat;
  failed : nat;
  reported_errors : list error_entry
}.

(** A call to the outside, with what came of it: for the two entity
    fetches the record the fetch function returns ([None] when anything
    raised), for the template service the decoded JSON body ([None] when
    the call raised), for the mail and the state update whether they went
    through.  A notification returns nothing the run looks at. *)
Inductive event : Type :=
| EvFetchOrders (answer : orders_response)
| EvFetchCustomer (url : pyval) (answer : option (list (string * pyval)))
| EvFetchAddress (url : pyval) (answer : option (list (string * pyval)))
| EvRenderTemplate (order customer address : pyval) (answer : option pyval)
| EvSendMail (customer_email reference html : pyval) (sent : bool)
| EvUpdateState (id : pyval) (new_state : nat) (updated : bool)
| EvNotifyCritical (title message timestamp : string)
| EvNotifyWarning (title : string) (message : summary_message)
    (details : warning_details)
| EvNotifySuccess (title : string) (message : summary_message).

(** The outside.  Each answer is a function of the calls made so far (most
    recent first) and of the request.  A fetch answers the decoded XML
    document, or [None] when the request or the decoding raised; the
    template service answers the decoded JSON body likewise (JSON numbers
    and booleans are not modelled); [smtp] is the outcome of the whole of
    [send_shipment_confirmation_email], whose choice of recipient by
    environment no property below looks at. *)
Record world : Type := World {
  orders_api : list event -> orders_response;
  customer_api : list event -> pyval -> option pyval;
  address_api : list event -> pyval -> option pyval;
  template_api : list event -> pyval -> pyval -> pyval -> option pyval;
  smtp : list event -> pyval -> pyval -> pyval -> bool;
  order_histories_api : list event -> pyval -> nat -> bool;
  clock : list event -> string
}.

(** The state of a run: the processor's statistics, the calls made so far
    (most recent first) and the log (most recent first). *)
Record state : Type := State {
  stats : statistics;
  trace : list event;
  logs : list log_record
}.

(** ** The monad of the run: state, and exceptions that keep the state *)

Definition M (A : Type) : Type := state -> result A * state.

Definition ret {A} (a : A) : M A := fun st => (Ok a, st).

Definition bind {A B} (m : M A) (k : A -> M B) : M B :=
  fun st =>
    match m st with
    | (Ok a, st') => k a st'
    | (Raise e, st') => (Raise e, st')
    end.

Definition lift {A} (r : result A) : M A := fun st => (r, st).

(** [try: m  except Exception as e: h e] *)
Definition try_except {A} (m : M A) (h : exn -> M A) : M A :=
  fun st =>
    match m st with
    | (Ok a, st') => (Ok a, st')
    | (Raise e, st') => h e st'
    end.

Notation "x <- m ;; k" := (bind m (fun x => k))
  (at level 61, m at next level, right associativity).
Notation "m ;; k" := (bind m (fun _ => k))
  (at level 61, right associativity).

Definition log (l : log_level) (t : string) : M unit :=
  fun st => (Ok tt, State (stats st) (trace st) (LogRecord l t :: logs st)).

Definition emit (e : event) : M unit :=
  fun st => (Ok tt, State (stats st) (e :: trace st) (logs st)).

Definition history : M (list event) := fun st => (Ok (trace st), st).

Definition get_stats : M statistics := fun st => (Ok (stats st), st).

Definition put_stats (s : statistics) : M unit :=
  fun st => (Ok tt, State s (trace st) (logs st)).

Definition rbind {A B} (r : result A) (k : A -> result B) : result B :=
  match r with
  | Ok a => k a
  | Raise e => Raise e
  end.

(** ** [email_service.py]: the addressing of the shipment mail *)

Module EmailService.

(** The fields of [EmailService] the addressing reads; [environment] is
    the lower-cased string [__init__] stores, the addresses are a str or
    [None]. *)
Record config : Type := Config {
  sender_email : pyval;
  bcc_email : pyval;
  environment : string;
  dev_test_email : pyval
}.

(** What [send_shipment_confirmation_email] addresses the message to: the
    "To" header, the "Bcc" header when there is one, and the recipients it
    hands to [sendmail]. *)
Record addressing : Type := Addressing {
  to_header : pyval;
  bcc_header : option pyval;
  recipients : list pyval
}.

(** Lines 112-123, 131-132 and 145-149 of
    [send_shipment_confirmation_email]; [None] is the [return False] of
    line 115, taken before any message is built. *)
Definition addressing_of (self : config) (customer_email : pyval)
  : option addressing :=
  let build (recipient_email : pyval) :=
    Addressing recipient_email
      (if (environment self =? "production") && truthy (bcc_email self)
       then Some (bcc_email self) else None)
      (recipient_email ::
       (if (environment self =? "production") && truthy (bcc_email self)
        then [bcc_email self] else [])) in
  if environment self =? "development" then
    if negb (truthy (dev_test_email self)) then None
    else Some (build (dev_test_email self))
  else Some (build customer_email).

End EmailService.

(** ** [notifications.py] *)

Module NotificationManager.

(** [s.split(",")] *)
Fixpoint split_comma (s : string) : list string :=
  match s with
  | EmptyString => [EmptyString]
  | String c r =>
      if Ascii.eqb c "," then EmptyString :: split_comma r
      else
        match split_comma r with
        | h :: t => String c h :: t
        | [] => [String c EmptyString]
        end
  end.

(** [NotificationManager._parse_email_list] *)
Definition _parse_email_list (email_string : string) : list string :=
  if email_string =? "" then []
  else
    map strip
      (filter (fun email => negb (strip email =? ""))
         (split_comma email_string)).

(** [email_config] and [slack_config]; the sender and its password are
    what [os.getenv] gave, a str or [None]. *)
Record config : Type := Config {
  email_enabled : bool;
  sender_email : pyval;
  sender_password : pyval;
  notification_emails : list string;
  slack_enabled : bool;
  webhook_url : string;
  channel : string;
  username : string
}.

(** [NotificationManager._validate_config]: the configuration it leaves,
    and the warnings it logs. *)
Definition _validate_config (self : config) : config * list log_record :=
  let (self, lg) :=
    if email_enabled self then
      if negb (truthy (sender_email self) && truthy (sender_password self)
               && match notification_emails self with
                  | [] => false
                  | _ => true
                  end)
      then
        (Config false (sender_email self) (sender_password self)
           (notification_emails self) (slack_enabled self)
           (webhook_url self) (channel self) (username self),
         [LogRecord WARNING
            "Email notifications enabled but missing configuration. Disabling email notifications."])
      else (self, [])
    else (self, []) in
  if slack_enabled self then
    if negb (negb (webhook_url self =? "")) then
      (Config (email_enabled self) (sender_email self) (sender_password self)
         (notification_emails self) false (webhook_url self) (channel self)
         (username self),
       (LogRecord WARNING
          "Slack notifications enabled but webhook URL missing. Disabling Slack notifications."
        :: lg))
    else (self, lg)
  else (self, lg).

(** The two channels: whether the SMTP submission of a message went
    through, and the HTTP status the webhook answered ([None] when the
    request raised). *)
Record channels : Type := Channels {
  smtp_send : list string -> string -> bool;
  webhook_post : string -> string -> bool -> option nat
}.

(** A message handed to a channel. *)
Inductive attempt : Type :=
| MailTo (recipients : list string) (subject : string)
| SlackPost (message type : string) (is_critical : bool).

(** The subject line of [send_email_notification] (lines 94-95). *)
Definition email_subject (subject : string) (is_critical : bool) : string :=
  (if is_critical then "[ERROR CRÍTICO]" else "[ADVERTENCIA]")
  ++ " - Confirmación de Envíos: " ++ subject.

(** [NotificationManager.send_email_notification]: its result and the
    messages it handed to the channel. *)
Definition send_email_notification (self : config) (ch : channels)
    (subject : string) (is_critical : bool) : bool * list attempt :=
  if negb (email_enabled self) then (false, [])
  else
    (smtp_send ch (notification_emails self)
       (email_subject subject is_critical),
     [MailTo (notification_emails self) (email_subject subject is_critical)]).

(** [NotificationManager.send_slack_notification] *)
Definition send_slack_notification (self : config) (ch : channels)
    (message : string) (is_critical : bool) (type : string)
  : bool * list attempt :=
  if negb (slack_enabled self) then (false, [])
  else
    (match webhook_post ch message type is_critical with
     | Some status => (status =? 200)%nat
     | None => false
     end,
     [SlackPost message type is_critical]).

(** [NotificationManager.send_critical_notification]: the two sends are
    gathered, both run whatever the other does; the order of the two
    attempts in the list carries no meaning. *)
Definition send_critical_notification (self : config) (ch : channels)
    (title message : string) : bool * list attempt :=
  let email_result := send_email_notification self ch title true in
  let slack_result :=
    send_slack_notification self ch (title ++ ": " ++ message) true "error" in
  (fst email_result || fst slack_result,
   (snd email_result ++ snd slack_result)%list).

(** [NotificationManager.send_info_notification] *)
Definition send_info_notification (self : config) (ch : channels)
    (title message type : string) : bool * list attempt :=
  let slack_result :=
    send_slack_notification self ch (title ++ ": " ++ message) false type in
  if negb (fst slack_result) then
    let email_result := send_email_notification self ch title false in
    (fst email_result, (snd slack_result ++ snd email_result)%list)
  else (fst slack_result, snd slack_result).

(** [NotificationManager.notify_warning] *)
Definition notify_warning (self : config) (ch : channels)
    (title message : string) : bool * list attempt :=
  let email_result := send_email_notification self ch title false in
  let slack_result :=
    send_slack_notification self ch (title ++ ": " ++ message) false
      "warning" in
  (fst email_result || fst slack_result,
   (snd email_result ++ snd slack_result)%list).

(** [NotificationManager.notify_success] *)
Definition notify_success (self : config) (ch : channels)
    (title message : string) : bool * list attempt :=
  send_info_notification self ch title message "success".

(** The bound [_create_slack_payload] puts on the text of the details
    block (lines 325-326). *)
Definition limit_details (details_text : string) : string :=
  if (2000 <? String.length details_text)%nat then
    substring 0 1997 details_text ++ "..."
  else details_text.

End NotificationManager.

(** Whether a string holds a comma. *)
Fixpoint has_comma (s : string) : bool :=
  match s with
  | EmptyString => false
  | String c r => Ascii.eqb c "," || has_comma r
  end.

(** ** Sample data for the closed examples *)

(** A [repr] for the closed examples: Python's, on values whose strings
    need no escaping. *)
Fixpoint plain_repr (v : pyval) : string :=
  match v with
  | PNone => "None"
  | PStr s => "'" ++ s ++ "'"
  | PDict d =>
      "{" ++
      (fix items (d : list (string * pyval)) : string :=
         match d with
         | [] => ""
         | (k, x) :: r =>
             "'" ++ k ++ "': " ++ plain_repr x ++
             match r with [] => "" | _ => ", " ++ items r end
         end) d ++ "}"
  | PList l =>
      "[" ++
      (fix items (l : list pyval) : string :=
         match l with
         | [] => ""
         | x :: r =>
             plain_repr x ++
             match r with [] => "" | _ => ", " ++ items r end
         end) l ++ "]"
  end.

Definition link (href : string) : pyval := PDict [("@xlink:href", PStr href)].

(** The order of the spec's scenarios: id 10, reference A100, tracking
    number TRK123, customer 5, address 7. *)
Definition order_10_fields : list (string * pyval) :=
  [("id", PStr "10"); ("reference", PStr "A100");
   ("shipping_number", PDict [("_", PStr "TRK123")]);
   ("id_customer", link "/customers/5");
   ("id_address_delivery", link "/addresses/7")].

Definition order_10 : pyval := PDict order_10_fields.

(** A second order with a tracking number and no address link. *)
Definition order_11 : pyval :=
  PDict [("id", PStr "11"); ("reference", PStr "A101");
         ("shipping_number", PDict [("_", PStr "TRK456")]);
         ("id_customer", link "/customers/5")].

(** An order without a tracking field, one whose tracking number came
    with blanks around it, and one whose wrapped tracking text is [None]. *)
Definition order_bare : pyval := PDict [("id", PStr "12")].

Definition order_blanks : pyval :=
  PDict [("id", PStr "13"); ("shipping_number", PStr " TRK123 ")].

Definition order_none_text : pyval :=
  PDict [("id", PStr "14"); ("shipping_number", PDict [("_", PNone)])].

Definition document (orders : pyval) : pyval :=
  PDict [("prestashop", PDict [("orders", PDict [("order", orders)])])].

Definition customer_5 : pyval :=
  PDict [("prestashop",
          PDict [("customer",
                  PDict [("id", PStr "5"); ("firstname", PStr "Ana");
                         ("lastname", PStr "Ruiz");
                         ("email", PStr "ana@example.org")])])].

Definition address_7 : pyval :=
  PDict [("prestashop",
          PDict [("address",
                  PDict [("id", PStr "7"); ("id_customer", PStr "5");
                         ("address1", PStr "Calle Mayor 1");
                         ("postcode", PStr "28001");
                         ("city", PStr "Madrid")])])].

Definition html_body : pyval :=
  PDict [("body", PDict [("html", PStr "<html></html>")])].

(** A world in which every call succeeds and the shop lists [orders]. *)
Definition world_ok (orders : pyval) : world :=
  World (fun _ => Parsed (document orders))
        (fun _ _ => Some customer_5)
        (fun _ _ => Some address_7)
        (fun _ _ _ _ => Some html_body)
        (fun _ _ _ _ => true)
        (fun _ _ _ => true)
        (fun _ => "2026-01-01T00:00:00").

(** The same world, except that the shop refuses the state update. *)
Definition world_no_update (orders : pyval) : world :=
  World (fun _ => Parsed (document orders))
        (fun _ _ => Some customer_5)
        (fun _ _ => Some address_7)
        (fun _ _ _ _ => Some html_body)
        (fun _ _ _ _ => true)
        (fun _ _ _ => false)
        (fun _ => "2026-01-01T00:00:00").

(** The same world, except that no customer can be fetched. *)
Definition world_no_customer (orders : pyval) : world :=
  World (fun _ => Parsed (document orders))
        (fun _ _ => None)
        (fun _ _ => Some address_7)
        (fun _ _ _ _ => Some html_body)
        (fun _ _ _ _ => true)
        (fun _ _ _ => true)
        (fun _ => "2026-01-01T00:00:00").

(** A world in which the shop cannot be reached. *)
Definition world_down : world :=
  World (fun _ => TransportError)
        (fun _ _ => None)
        (fun _ _ => None)
        (fun _ _ _ _ => None)
        (fun _ _ _ _ => false)
        (fun _ _ _ => false)
        (fun _ => "2026-01-01T00:00:00").

(** A notification manager with both channels configured, channels on
    which Slack answers 500 and the mail goes through, and the mail service
    in development and in production mode. *)
Definition notifier_ok : NotificationManager.config :=
  NotificationManager.Config true (PStr "noreply@example.org") (PStr "secret")
    ["ops@example.org"] true "https://hooks.example.org/T1"
    "#confirmation-shipment" "ConfirmationShipment-Bot".

Definition channels_slack_down : NotificationManager.channels :=
  NotificationManager.Channels (fun _ _ => true) (fun _ _ _ => Some 500).

Definition mailer_development : EmailService.config :=
  EmailService.Config (PStr "orders@example.org") (PStr "bcc@example.org")
    "development" (PStr "test@example.org").

Definition mailer_production : EmailService.config :=
  EmailService.Config (PStr "orders@example.org") (PStr "bcc@example.org")
    "production" (PStr "test@example.org").

(** A state in which six errors were recorded, for the summary. *)
Definition sample_error (id : string) : error_entry :=
  ErrorEntry (PStr id) "boom".

Definition state_six_errors : state :=
  State (Statistics 7 1 6
           (map sample_error ["21"; "22"; "23"; "24"; "25"; "26"]))
        [] [].

Section Pipeline.

(** Python's [repr], which [str] falls back on for a value that is not a
    str.  The development holds for any such function. *)
Variable py_repr : pyval -> string.

(** [str(v)] *)
Definition py_str (v : pyval) : string :=
  match v with
  | PStr s => s
  | _ => py_repr v
  end.

(** ** [prestashop_service.py] *)

(** [PrestaShopService._normalize_orders] *)
Definition _normalize_orders (data : pyval) : M (list pyval) :=
  try_except
    (if negb (truthy data) then
       (log WARNING "Datos de entrada vacíos en _normalize_orders" ;;
        ret [])
     else
       (prestashop <- lift (py_get data "prestashop" PNone) ;;
        if negb (truthy prestashop) then
          (log WARNING "No se encontró nodo 'prestashop' en la respuesta XML" ;;
           log DEBUG "Estructura recibida" ;;
           ret [])
        else
          (orders_data <- lift (py_get prestashop "orders" PNone) ;;
           if negb (truthy orders_data) then
             (log INFO "No se encontró nodo 'orders' en la respuesta - no hay pedidos pendientes" ;;
              ret [])
           else
             (order_data <- lift (py_get orders_data "order" (PList [])) ;;
              match order_data with
              | PDict _ =>
                  log DEBUG "Se encontró un solo pedido, convirtiéndolo a lista" ;;
                  ret [order_data]
              | PList l =>
                  log DEBUG "Se encontraron pedidos" ;;
                  ret l
              | _ =>
                  log WARNING "Tipo de dato inesperado para 'order'" ;;
                  ret []
              end))))
    (fun e => log ERROR "Error al normalizar órdenes" ;; ret []).

(** The body of the loop of [_filter_orders_with_tracking] up to the
    computation of [tracking_value] (lines 143-156): the order as the body
    leaves it, and [tracking_value] or the exception raised. *)
Definition filter_order (order : pyval) : pyval * result string :=
  match order with
  | PDict d =>
      (* shipping_number = order.get("shipping_number", {}) *)
      let shipping_number :=
        match dict_get "shipping_number" d with
        | Some x => x
        | None => PDict []
        end in
      (* if not isinstance(shipping_number, dict): wrap it, store it *)
      let '(d, shipping_number) :=
        match shipping_number with
        | PDict s => (d, s)
        | _ =>
            let s :=
              [("_", PStr (if truthy shipping_number
                           then py_str shipping_number else ""))] in
            (dict_set "shipping_number" (PDict s) d, s)
        end in
      (* if "_" not in shipping_number: add it, store it *)
      let '(d, shipping_number) :=
        if dict_mem "_" shipping_number then (d, shipping_number)
        else
          let s := dict_set "_" (PStr "") shipping_number in
          (dict_set "shipping_number" (PDict s) d, s) in
      (* tracking_value = shipping_number.get("_", "").strip() *)
      (PDict d,
       py_strip (match dict_get "_" shipping_number with
                 | Some x => x
                 | None => PStr ""
                 end))
  | _ => (order, Raise (AttributeError (type_name order) "get"))
  end.

(** The loop of [_filter_orders_with_tracking].  The orders are mutated in
    place, so the result has two parts: the input list as the loop leaves
    it, and what the function returns (or raises) with the state. *)
Fixpoint filter_loop (orders filtered_orders : list pyval) (st : state)
  : list pyval * (result (list pyval) * state) :=
  match orders with
  | [] => ([], (Ok filtered_orders, st))
  | order :: rest =>
      match filter_order order with
      | (order', Raise e) => (order' :: rest, (Raise e, st))
      | (order', Ok tracking_value) =>
          let '(filtered_orders', m) :=
            if negb (tracking_value =? "") then
              ((filtered_orders ++ [order'])%list,
               log DEBUG "Pedido tiene número de seguimiento")
            else
              (filtered_orders,
               log DEBUG "Pedido no tiene número de seguimiento, se omite") in
          let '(rest', r) := filter_loop rest filtered_orders' (snd (m st)) in
          (order' :: rest', r)
      end
  end.

(** [PrestaShopService._filter_orders_with_tracking]: what it returns. *)
Definition _filter_orders_with_tracking (orders : list pyval)
  : M (list pyval) :=
  fun st => snd (filter_loop orders [] st).

(** The input list of [_filter_orders_with_tracking] after the call. *)
Definition orders_after_filter (orders : list pyval) (st : state)
  : list pyval :=
  fst (filter_loop orders [] st).

(** [PrestaShopService.fetch_pending_shipment_orders] *)
Definition fetch_pending_shipment_orders (w : world)
  : M (option (list pyval)) :=
  log INFO "Consultando pedidos pendientes de envío" ;;
  h <- history ;;
  let response := orders_api w h in
  emit (EvFetchOrders response) ;;
  match response with
  | TransportError =>
      log ERROR "Error al consultar pedidos" ;;
      ret None
  | EmptyBody =>
      log WARNING "La API devolvió una respuesta vacía" ;;
      ret (Some [])
  | Unparsable =>
      log ERROR "Error al parsear XML" ;;
      log DEBUG "Respuesta recibida (primeros 500 chars)" ;;
      ret None
  | Parsed data =>
      try_except
        (orders <- _normalize_orders data ;;
         orders_with_tracking <- _filter_orders_with_tracking orders ;;
         log INFO "Se encontraron pedidos en estado 3, con número de seguimiento" ;;
         ret (Some orders_with_tracking))
        (fun e =>
           log ERROR "Error inesperado al procesar respuesta" ;;
           ret None)
  end.

(** The projection of [fetch_customer_data] (lines 181-190). *)
Definition customer_fields (data : pyval)
  : result (list (string * pyval)) :=
  rbind (py_get data "prestashop" (PDict [])) (fun p =>
  rbind (py_get p "customer" (PDict [])) (fun customer =>
  rbind (py_get customer "id" PNone) (fun id =>
  rbind (py_get customer "firstname" PNone) (fun firstname =>
  rbind (py_get customer "lastname" PNone) (fun lastname =>
  rbind (py_get customer "email" PNone) (fun email =>
  Ok [("id", id); ("firstname", firstname);
      ("lastname", lastname); ("email", email)])))))).

(** [PrestaShopService.fetch_customer_data]: the customer record, or
    [None] when anything raised. *)
Definition fetch_customer_data (w : world) (customer_url : pyval)
  : M (option (list (string * pyval))) :=
  log DEBUG "Consultando datos del cliente" ;;
  h <- history ;;
  let answer :=
    match customer_api w h customer_url with
    | Some data =>
        match customer_fields data with
        | Ok c => Some c
        | Raise _ => None
        end
    | None => None
    end in
  emit (EvFetchCustomer customer_url answer) ;;
  match answer with
  | Some c => ret (Some c)
  | None => log ERROR "Error al obtener datos del cliente" ;; ret None
  end.

(** The projection of [fetch_address_data] (lines 211-226). *)
Definition address_fields (data : pyval)
  : result (list (string * pyval)) :=
  rbind (py_get data "prestashop" (PDict [])) (fun p =>
  rbind (py_get p "address" (PDict [])) (fun address =>
  rbind (py_get address "id_customer" PNone) (fun id_customer =>
  rbind (if is_dict id_customer then py_get id_customer "_" PNone
         else Ok id_customer) (fun id_customer =>
  rbind (py_get address "id" PNone) (fun id =>
  rbind (py_get address "address1" PNone) (fun address1 =>
  rbind (py_get address "address2" PNone) (fun address2 =>
  rbind (py_get address "postcode" PNone) (fun postcode =>
  rbind (py_get address "city" PNone) (fun city =>
  Ok [("id", id); ("id_customer", id_customer);
      ("address1", address1); ("address2", address2);
      ("postcode", postcode); ("city", city)]))))))))).

(** [PrestaShopService.fetch_address_data] *)
Definition fetch_address_data (w : world) (address_url : pyval)
  : M (option (list (string * pyval))) :=
  log DEBUG "Consultando dirección" ;;
  h <- history ;;
  let answer :=
    match address_api w h address_url with
    | Some data =>
        match address_fields data with
        | Ok a => Some a
        | Raise _ => None
        end
    | None => None
    end in
  emit (EvFetchAddress address_url answer) ;;
  match answer with
  | Some a => ret (Some a)
  | None => log ERROR "Error al obtener dirección" ;; ret None
  end.

(** [PrestaShopService.update_order_state]: true when the shop acknowledged
    the request, false when anything raised. *)
Definition update_order_state (w : world) (id : pyval) (new_state : nat)
  : M bool :=
  log INFO "Actualizando estado del pedido" ;;
  h <- history ;;
  let updated := order_histories_api w h id new_state in
  emit (EvUpdateState id new_state updated) ;;
  if updated then
    (log INFO "Estado del pedido actualizado correctamente" ;; ret true)
  else
    (log ERROR "Error al actualizar estado del pedido" ;; ret false).


(** ** [email_service.py] *)

(** [result.get("body", {}).get("html")] *)
Definition html_of (body : pyval) : result pyval :=
  rbind (py_get body "body" (PDict [])) (fun b => py_get b "html" PNone).

(** [EmailService.generate_email_template]: the HTML, or [None] when the
    call raised or the body holds no HTML. *)
Definition generate_email_template (w : world)
    (order : pyval) (customer address : list (string * pyval))
  : M (option pyval) :=
  try_except
    (lift (py_get order "id" PNone) ;;
     log DEBUG "Generando plantilla de email para pedido" ;;
     h <- history ;;
     let answer := template_api w h order (PDict customer) (PDict address) in
     emit (EvRenderTemplate order (PDict customer) (PDict address) answer) ;;
     match answer with
     | None =>
         log ERROR "Error al generar plantilla de email" ;;
         ret None
     | Some body =>
         html_content <- lift (html_of body) ;;
         if negb (truthy html_content) then
           (log ERROR "La API no devolvió contenido HTML" ;; ret None)
         else ret (Some html_content)
     end)
    (fun e => log ERROR "Error al generar plantilla de email" ;; ret None).

(** [EmailService.send_shipment_confirmation_email] *)
Definition send_shipment_confirmation_email (w : world)
    (customer_email order_reference html_content : pyval) : M bool :=
  h <- history ;;
  let sent := smtp w h customer_email order_reference html_content in
  emit (EvSendMail customer_email order_reference html_content sent) ;;
  if sent then
    (log INFO "Email de confirmación de envío enviado correctamente" ;;
     ret true)
  else (log ERROR "Error al enviar email" ;; ret false).

(** ** [order_processor.py] *)

(** [OrderProcessor._extract_xlink_href] *)
Definition _extract_xlink_href (field : pyval) : pyval :=
  match field with
  | PDict d =>
      match dict_get "@xlink:href" d with
      | Some x => x
      | None => PNone
      end
  | _ => PNone
  end.

(** [order.get("shipping_number", {}).get("_", "")] (line 56) *)
Definition tracking_number_of (order : pyval) : result pyval :=
  rbind (py_get order "shipping_number" (PDict []))
        (fun shipping_number => py_get shipping_number "_" (PStr "")).

(** [self.stats["errors"].append(entry)] *)
Definition append_error (entry : error_entry) : M unit :=
  s <- get_stats ;;
  put_stats (Statistics (orders_processed s) (orders_success s)
               (orders_failed s) (errors s ++ [entry])%list).

(** [OrderProcessor.process_single_order].  A fetch returns a record of
    four (six) keys or [None], and the template function a true value or
    [None], so the tests [not customer], [not address] and
    [not html_content] are the matches on [None]. *)
Definition process_single_order (w : world) (order : pyval) : M bool :=
  try_except
    (order_id <- lift (py_get order "id" PNone) ;;
     order_reference <- lift (py_get order "reference" PNone) ;;
     tracking_number <- lift (tracking_number_of order) ;;
     log INFO "Procesando pedido" ;;
     id_customer <- lift (py_get order "id_customer" PNone) ;;
     let customer_url := _extract_xlink_href id_customer in
     id_address_delivery <- lift (py_get order "id_address_delivery" PNone) ;;
     let address_url := _extract_xlink_href id_address_delivery in
     if negb (truthy customer_url) || negb (truthy address_url) then
       (log ERROR "Pedido no tiene URLs de cliente o dirección" ;;
        ret false)
     else
       (customer <- fetch_customer_data w customer_url ;;
        match customer with
        | None =>
            log ERROR "No se pudo obtener datos del cliente para pedido" ;;
            ret false
        | Some customer =>
            address <- fetch_address_data w address_url ;;
            match address with
            | None =>
                log ERROR "No se pudo obtener dirección para pedido" ;;
                ret false
            | Some address =>
                html_content <-
                  generate_email_template w order customer address ;;
                match html_content with
                | None =>
                    log ERROR "No se pudo generar plantilla para pedido" ;;
                    ret false
                | Some html_content =>
                    email <- lift (dict_item customer "email") ;;
                    email_sent <-
                      send_shipment_confirmation_email
                        w email order_reference html_content ;;
                    if negb email_sent then
                      (log ERROR "No se pudo enviar email para pedido" ;;
                       ret false)
                    else
                      (state_updated <- update_order_state w order_id 4 ;;
                       (if negb state_updated then
                          log WARNING
                            "Email enviado pero no se pudo actualizar estado del pedido"
                        else ret tt) ;;
                       log INFO "Pedido procesado correctamente" ;;
                       ret true)
                end
            end
        end))
    (fun e =>
       log ERROR "Error al procesar pedido" ;;
       id <- lift (py_get order "id" PNone) ;;
       append_error (ErrorEntry id (exn_str e)) ;;
       ret false).

(** [OrderProcessor.send_execution_summary].  [notify_warning] and
    [notify_success] catch what their channels raise and their result is
    dropped. *)
Definition send_execution_summary : M unit :=
  try_except
    (s <- get_stats ;;
     if (orders_processed s =? 0)%nat then ret tt
     else
       let message :=
         SummaryMessage (orders_processed s) (orders_success s)
           (orders_failed s) in
       if (0 <? orders_failed s)%nat then
         emit (EvNotifyWarning "Ejecución de envíos completada con errores"
                 message
                 (WarningDetails (orders_processed s) (orders_success s)
                    (orders_failed s) (firstn 5 (errors s))))
       else
         emit (EvNotifySuccess "Ejecución de envíos completada exitosamente"
                 message))
    (fun e => log ERROR "Error al enviar resumen de ejecución").

Definition count_processed : M unit :=
  s <- get_stats ;;
  put_stats (Statistics (S (orders_processed s)) (orders_success s)
               (orders_failed s) (errors s)).

Definition count_outcome (success : bool) : M unit :=
  s <- get_stats ;;
  if success then
    put_stats (Statistics (orders_processed s) (S (orders_success s))
                 (orders_failed s) (errors s))
  else
    put_stats (Statistics (orders_processed s) (orders_success s)
                 (S (orders_failed s)) (errors s)).

(** The body of the loop of [process_all_orders_async] (lines 195-202). *)
Definition process_order (w : world) (order : pyval) : M unit :=
  count_processed ;;
  success <- process_single_order w order ;;
  count_outcome success.

(** [for order in orders: ...] *)
Fixpoint process_orders (w : world) (orders : list pyval) : M unit :=
  match orders with
  | [] => ret tt
  | order :: rest => process_order w order ;; process_orders w rest
  end.

(** ["=" * 80] *)
Definition separator : string :=
  "================================================================================".

(** [notify_critical_error(title, message, {"timestamp": ...})] *)
Definition notify_critical_error (w : world) (title message : string)
  : M unit :=
  h <- history ;;
  emit (EvNotifyCritical title message (clock w h)).

(** [OrderProcessor.process_all_orders_async] *)
Definition process_all_orders_async (w : world) : M unit :=
  try_except
    (log INFO separator ;;
     log INFO "Iniciando proceso de confirmación de envíos" ;;
     log INFO separator ;;
     orders <- fetch_pending_shipment_orders w ;;
     match orders with
     | None =>
         log ERROR "Error al consultar pedidos" ;;
         notify_critical_error w "Error al consultar PrestaShop API"
           "No se pudo conectar con la API de PrestaShop para obtener pedidos pendientes de envío"
     | Some [] =>
         log INFO "No hay pedidos pendientes de envío para procesar"
     | Some orders =>
         process_orders w orders ;;
         send_execution_summary ;;
         log INFO separator ;;
         log INFO "Proceso completado" ;;
         log INFO separator
     end)
    (fun e =>
       log ERROR "Error crítico en el proceso principal" ;;
       notify_critical_error w
         "Error crítico en proceso de confirmación de envíos" (exn_str e)).

(** [OrderProcessor.__init__]: the statistics of a new processor, and the
    state in which its run starts. *)
Definition initial_stats : statistics := Statistics 0 0 0 [].

Definition initial_state : state := State initial_stats [] [].

(** One run of a new processor: the state it ends in. *)
Definition run (w : world) : state :=
  snd (process_all_orders_async w initial_state).

(** ** The tracking filter read as a function

    What lines 143-156 compute, written as functions of the order: the
    text the tracking field is coerced to, whether the loop body can run
    without raising, whether the field is in wrapped form already, and the
    order as the body leaves it. *)

(** The tracking field coerced to text (the scalar rule): the "_" entry of
    a mapping, the empty string when the field or the entry is absent,
    [str] of any other true value, the empty string for a false one. *)
Definition tracking_text (order : pyval) : string :=
  match order with
  | PDict d =>
      match dict_get "shipping_number" d with
      | None => ""
      | Some (PDict s) =>
          match dict_get "_" s with
          | Some (PStr t) => t
          | _ => ""
          end
      | Some v => if truthy v then py_str v else ""
      end
  | _ => ""
  end.

(** The order is a mapping and, when its tracking field is a mapping with
    a "_" entry, that entry is a string. *)
Definition text_entry_ok (order : pyval) : bool :=
  match order with
  | PDict d =>
      match dict_get "shipping_number" d with
      | Some (PDict s) =>
          match dict_get "_" s with
          | Some (PStr _) | None => true
          | Some _ => false
          end
      | _ => true
      end
  | _ => false
  end.

(** The tracking field is already a mapping with a "_" entry. *)
Definition already_wrapped (order : pyval) : bool :=
  match order with
  | PDict d =>
      match dict_get "shipping_number" d with
      | Some (PDict s) => dict_mem "_" s
      | _ => false
      end
  | _ => false
  end.

(** The order with its tracking field in wrapped form. *)
Definition wrapped (order : pyval) : pyval :=
  match order with
  | PDict d =>
      match dict_get "shipping_number" d with
      | Some (PDict s) =>
          if dict_mem "_" s then order
          else PDict (dict_set "shipping_number"
                        (PDict (dict_set "_" (PStr "") s)) d)
      | _ =>
          PDict (dict_set "shipping_number"
                   (PDict [("_", PStr (tracking_text order))]) d)
      end
  | _ => order
  end.

(** [order.get(k)] on a mapping, [None] on anything else. *)
Definition field (k : string) (order : pyval) : option pyval :=
  match order with
  | PDict d => dict_get k d
  | _ => None
  end.

(** The order has a tracking number: the coerced text, trimmed, is not
    empty. *)
Definition has_tracking (order : pyval) : bool :=
  negb (strip (tracking_text order) =? "").

(** The node [prestashop/orders] of a decoded document, when it is there. *)
Definition orders_node (data : pyval) : option pyval :=
  match data with
  | PDict d =>
      match dict_get "prestashop" d with
      | Some (PDict p) => dict_get "orders" p
      | _ => None
      end
  | _ => None
  end.

(** The node [prestashop/orders/order]: the collection position. *)
Definition order_node (data : pyval) : option pyval :=
  match orders_node data with
  | Some (PDict o) => dict_get "order" o
  | _ => None
  end.

(** ** The runs of [process_single_order], for the proofs *)

Definition is_notification (e : event) : bool :=
  match e with
  | EvNotifyCritical _ _ _ | EvNotifyWarning _ _ _ | EvNotifySuccess _ _ => true
  | _ => false
  end.

(** [order.get(k)] *)
Definition get_or_none (k : string) (order : pyval) : pyval :=
  match field k order with
  | Some x => x
  | None => PNone
  end.

(** The link of an order to its customer, and to its delivery address, as
    [process_single_order] extracts them (lines 61-62). *)
Definition customer_link (order : pyval) : pyval :=
  _extract_xlink_href (get_or_none "id_customer" order).

Definition address_link (order : pyval) : pyval :=
  _extract_xlink_href (get_or_none "id_address_delivery" order).

Definition both_links (order : pyval) : bool :=
  truthy (customer_link order) && truthy (address_link order).

(** The calls one order can give rise to (most recent first), with the
    result of [process_single_order]: the six ways through lines 64-105. *)
Inductive order_run (order : pyval) : list event -> bool -> Prop :=
| RunNoLink :
    both_links order = false ->
    order_run order [] false
| RunNoCustomer :
    both_links order = true ->
    order_run order [EvFetchCustomer (customer_link order) None] false
| RunNoAddress c :
    both_links order = true ->
    order_run order
      [EvFetchAddress (address_link order) None;
       EvFetchCustomer (customer_link order) (Some c)] false
| RunNoTemplate c a body :
    both_links order = true ->
    order_run order
      [EvRenderTemplate order (PDict c) (PDict a) body;
       EvFetchAddress (address_link order) (Some a);
       EvFetchCustomer (customer_link order) (Some c)] false
| RunNotSent c a body email html :
    both_links order = true ->
    order_run order
      [EvSendMail email (get_or_none "reference" order) html false;
       EvRenderTemplate order (PDict c) (PDict a) body;
       EvFetchAddress (address_link order) (Some a);
       EvFetchCustomer (customer_link order) (Some c)] false
| RunSent c a body email html updated :
    both_links order = true ->
    order_run order
      [EvUpdateState (get_or_none "id" order) 4 updated;
       EvSendMail email (get_or_none "reference" order) html true;
       EvRenderTemplate order (PDict c) (PDict a) body;
       EvFetchAddress (address_link order) (Some a);
       EvFetchCustomer (customer_link order) (Some c)] true.

(** An order [process_single_order] can start on: a mapping whose
    tracking number can be read. *)
Definition processable (order : pyval) : Prop :=
  exists d tn, order = PDict d /\ tracking_number_of order = Ok tn.

(** The state of a new processor when its run calls
    [fetch_pending_shipment_orders]: the three opening log lines were
    written. *)
Definition state_at_fetch : state :=
  State initial_stats []
    [LogRecord INFO separator;
     LogRecord INFO "Iniciando proceso de confirmación de envíos";
     LogRecord INFO separator].

(** ** Counting the calls of a run *)

Definition is_sent_mail (e : event) : bool :=
  match e with
  | EvSendMail _ _ _ true => true
  | _ => false
  end.

Definition is_state_update (e : event) : bool :=
  match e with
  | EvUpdateState _ _ _ => true
  | _ => false
  end.

Definition is_customer_fetch (e : event) : bool :=
  match e with
  | EvFetchCustomer _ _ => true
  | _ => false
  end.

(** The number of calls of one kind in a trace. *)
Definition count_calls (p : event -> bool) (t : list event) : nat :=
  List.length (filter p t).

(** A state update, if the call is one, asks for state 4. *)
Definition to_shipped (e : event) : Prop :=
  match e with
  | EvUpdateState _ n _ => n = 4
  | _ => True
  end.

(** What the loop of [process_all_orders_async] has done when it is over:
    the statistics it leaves, against the orders and the calls it made. *)
Record loop_facts (orders : list pyval) (before after : statistics)
    (evs : list event) : Prop := LoopFacts {
  lf_processed :
    orders_processed after = List.length orders + orders_processed before;
  lf_success :
    orders_success after = count_calls is_sent_mail evs + orders_success before;
  lf_failed :
    orders_failed after + count_calls is_sent_mail evs =
      List.length orders + orders_failed before;
  lf_errors : errors after = errors before;
  lf_updates :
    count_calls is_state_update evs = count_calls is_sent_mail evs;
  lf_customers :
    count_calls is_customer_fetch evs =
      List.length (filter both_links orders);
  lf_shipped : Forall to_shipped evs;
  lf_quiet : forallb (fun e => negb (is_notification e)) evs = true
}.

(** The orders the loop of the filter gets through: those before the
    first one on which its body raises. *)
Fixpoint examined (orders : list pyval) : list pyval :=
  match orders with
  | [] => []
  | o :: rest => if text_entry_ok o then o :: examined rest else []
  end.



(** ** Lemmas on dictionaries and strings *)

Lemma dict_get_set_same (k : string) (v : pyval) d :
  dict_get k (dict_set k v d) = Some v.
Proof.
  induction d as [|[k' v'] r IH]; simpl.
  - now rewrite String.eqb_refl.
  - destruct (k =? k') eqn:E; simpl.
    + now rewrite String.eqb_refl.
    + now rewrite E.
Qed.

Lemma dict_get_set_other (k k' : string) (v : pyval) d :
  k' <> k -> dict_get k' (dict_set k v d) = dict_get k' d.
Proof.
  intros Hne. apply String.eqb_neq in Hne.
  induction d as [|[k0 v0] r IH]; simpl.
  - now rewrite Hne.
  - destruct (k =? k0) eqn:E; simpl.
    + apply String.eqb_eq in E. subst k0. now rewrite Hne.
    + now rewrite IH.
Qed.

Lemma strip_nonempty (s : string) : strip s <> "" -> s <> "".
Proof. intros H E. subst s. now apply H. Qed.

(** ** The loop body of the filter *)

Lemma filter_order_ok (order : pyval) :
  text_entry_ok order = true ->
  filter_order order = (wrapped order, Ok (strip (tracking_text order))).
Proof.
  destruct order as [|s|d|l]; simpl; try discriminate.
  destruct (dict_get "shipping_number" d) as [[|t|sn|l]|] eqn:E; simpl; intros H.
  - reflexivity.
  - reflexivity.
  - unfold dict_mem.
    destruct (dict_get "_" sn) as [[|t|x|x]|] eqn:E1; try discriminate;
      rewrite ?E1; cbn [fst snd]; rewrite ?dict_get_set_same; reflexivity.
  - reflexivity.
  - reflexivity.
Qed.

Lemma filter_order_raise (order : pyval) :
  text_entry_ok order = false ->
  exists e, filter_order order = (order, Raise e).
Proof.
  destruct order as [|s|d|l]; simpl; try (intros _; eexists; reflexivity).
  destruct (dict_get "shipping_number" d) as [[|t|sn|l]|] eqn:E; simpl;
    try discriminate.
  unfold dict_mem.
  destruct (dict_get "_" sn) as [[|t|x|x]|] eqn:E1; try discriminate;
    intros _; rewrite ?E1; eexists; reflexivity.
Qed.

Lemma wrapped_other_fields (order : pyval) (k : string) :
  k <> "shipping_number" -> field k (wrapped order) = field k order.
Proof.
  intros Hk. destruct order as [|s|d|l]; simpl; try reflexivity.
  destruct (dict_get "shipping_number" d) as [[|t|sn|l]|]; simpl;
    try (now apply dict_get_set_other).
  destruct (dict_mem "_" sn); simpl; [reflexivity|].
  now apply dict_get_set_other.
Qed.

Lemma wrapped_already (order : pyval) :
  already_wrapped order = true -> wrapped order = order.
Proof.
  destruct order as [|s|d|l]; simpl; try reflexivity.
  destruct (dict_get "shipping_number" d) as [[|t|sn|l]|]; try discriminate.
  now intros ->.
Qed.

Lemma wrapped_tracking (order : pyval) :
  text_entry_ok order = true ->
  exists d s,
    wrapped order = PDict d /\
    dict_get "shipping_number" d = Some (PDict s) /\
    dict_get "_" s = Some (PStr (tracking_text order)).
Proof.
  destruct order as [|s|d|l]; simpl; try discriminate.
  destruct (dict_get "shipping_number" d) as [[|t|sn|l]|] eqn:E; simpl; intros H;
    try (eexists; eexists; split; [reflexivity|];
         split; [apply dict_get_set_same | reflexivity]).
  unfold dict_mem.
  destruct (dict_get "_" sn) as [[|t|x|x]|] eqn:E1; try discriminate.
  - exists d, sn. auto.
  - eexists; eexists; split; [reflexivity|].
    split; [apply dict_get_set_same | apply dict_get_set_same].
Qed.

(** ** The loop of the filter *)

Lemma filter_loop_ok (orders : list pyval) :
  forallb text_entry_ok orders = true ->
  forall acc st, exists st',
    filter_loop orders acc st =
      (map wrapped orders,
       (Ok (acc ++ map wrapped (filter has_tracking orders))%list, st'))
    /\ stats st' = stats st /\ trace st' = trace st.
Proof.
  induction orders as [|o rest IH]; simpl; intros Hall acc st.
  - exists st. now rewrite app_nil_r.
  - apply andb_prop in Hall as [Ho Hrest].
    rewrite (filter_order_ok o Ho). unfold has_tracking.
    destruct (negb (strip (tracking_text o) =? "")); simpl.
    + destruct (IH Hrest (acc ++ [wrapped o])%list
                  (State (stats st) (trace st)
                     (LogRecord DEBUG "Pedido tiene número de seguimiento"
                        :: logs st))) as (st' & E & Hs & Ht).
      rewrite E. exists st'. rewrite <- app_assoc. simpl. auto.
    + destruct (IH Hrest acc
                  (State (stats st) (trace st)
                     (LogRecord DEBUG
                        "Pedido no tiene número de seguimiento, se omite"
                        :: logs st))) as (st' & E & Hs & Ht).
      rewrite E. exists st'. auto.
Qed.

Lemma filter_loop_returns (orders : list pyval) :
  forall acc st after kept st',
    filter_loop orders acc st = (after, (Ok kept, st')) ->
    forallb text_entry_ok orders = true.
Proof.
  induction orders as [|o rest IH]; simpl; intros acc st after kept st' H.
  - reflexivity.
  - destruct (text_entry_ok o) eqn:Ho; simpl.
    + rewrite (filter_order_ok o Ho) in H.
      destruct (negb (strip (tracking_text o) =? "")); simpl in H.
      * destruct (filter_loop rest _ _) as [rest' [r st'']] eqn:E in H.
        inversion H; subst. eapply IH; eassumption.
      * destruct (filter_loop rest _ _) as [rest' [r st'']] eqn:E in H.
        inversion H; subst. eapply IH; eassumption.
    + destruct (filter_order_raise o Ho) as [e E]. rewrite E in H.
      discriminate.
Qed.

(** What the filter returns, when it returns: the kept orders in wrapped
    form, in the order of the input. *)
Lemma filter_returns (orders : list pyval) (st : state) kept st' :
  _filter_orders_with_tracking orders st = (Ok kept, st') ->
  forallb text_entry_ok orders = true /\
  kept = map wrapped (filter has_tracking orders) /\
  stats st' = stats st /\ trace st' = trace st.
Proof.
  unfold _filter_orders_with_tracking. intros H.
  destruct (filter_loop orders [] st) as [after [r st1]] eqn:E.
  simpl in H. inversion H; subst.
  pose proof (filter_loop_returns _ _ _ _ _ _ E) as Hall.
  destruct (filter_loop_ok orders Hall [] st) as (st2 & E2 & Hs & Ht).
  rewrite E in E2. inversion E2; subst. auto.
Qed.

Lemma filter_loop_after (orders : list pyval) :
  forall acc st,
    Forall2 (fun o o' => o' = o \/ o' = wrapped o)
            orders (fst (filter_loop orders acc st)).
Proof.
  induction orders as [|o rest IH]; simpl; intros acc st.
  - constructor.
  - destruct (text_entry_ok o) eqn:Ho.
    + rewrite (filter_order_ok o Ho).
      destruct (negb (strip (tracking_text o) =? "")); simpl.
      * specialize (IH (acc ++ [wrapped o])%list
                      (State (stats st) (trace st)
                         (LogRecord DEBUG "Pedido tiene número de seguimiento"
                            :: logs st))).
        destruct (filter_loop rest _ _) as [rest' r]. simpl in *.
        constructor; auto.
      * specialize (IH acc
                      (State (stats st) (trace st)
                         (LogRecord DEBUG
                            "Pedido no tiene número de seguimiento, se omite"
                            :: logs st))).
        destruct (filter_loop rest _ _) as [rest' r]. simpl in *.
        constructor; auto.
    + destruct (filter_order_raise o Ho) as [e E]. rewrite E. simpl.
      constructor; auto.
      clear. induction rest; constructor; auto.
Qed.

Lemma tracking_number_of_wrapped (order : pyval) :
  text_entry_ok order = true ->
  tracking_number_of (wrapped order) = Ok (PStr (tracking_text order)).
Proof.
  intros H. destruct (wrapped_tracking order H) as (d & s & Ew & Es & Et).
  rewrite Ew. unfold tracking_number_of. simpl. rewrite Es. simpl.
  now rewrite Et.
Qed.

(** ** Properties of the normalizer and of the filter *)

Ltac run_normalize :=
  unfold _normalize_orders, try_except, bind, lift, ret, log; simpl.

Lemma normalize_orders_absent (data : pyval) (st : state) :
  orders_node data = None ->
  fst (_normalize_orders data st) = Ok [].
Proof.
  destruct data as [|s|d|l]; run_normalize; intros H.
  - reflexivity.
  - destruct (s =? ""); reflexivity.
  - destruct d as [|kv d]; [reflexivity|]. cbn [negb].
    unfold orders_node in H.
    destruct (dict_get "prestashop" (kv :: d)) as [[|t|p|x]|]; simpl;
      try reflexivity.
    + destruct (t =? ""); reflexivity.
    + rewrite H. destruct p; reflexivity.
    + destruct x; reflexivity.
  - destruct l; reflexivity.
Qed.

Lemma normalize_orders_at_node (data v : pyval) (st : state) :
  order_node data = Some v ->
  _normalize_orders data st =
    match v with
    | PDict _ =>
        (Ok [v],
         State (stats st) (trace st)
           (LogRecord DEBUG "Se encontró un solo pedido, convirtiéndolo a lista"
              :: logs st))
    | PList l =>
        (Ok l,
         State (stats st) (trace st)
           (LogRecord DEBUG "Se encontraron pedidos" :: logs st))
    | _ =>
        (Ok [],
         State (stats st) (trace st)
           (LogRecord WARNING "Tipo de dato inesperado para 'order'"
              :: logs st))
    end.
Proof.
  unfold order_node, orders_node.
  destruct data as [|s|d|l]; try discriminate.
  destruct (dict_get "prestashop" d) as [[|t|p|x]|] eqn:Ep; try discriminate.
  destruct (dict_get "orders" p) as [[|t|o|x]|] eqn:Eo; try discriminate.
  intros Hv. run_normalize.
  destruct d as [|kv d]; [discriminate|]. cbn [negb]. rewrite Ep. simpl.
  destruct p as [|kv' p]; [discriminate|]. cbn [negb]. rewrite Eo. simpl.
  destruct o as [|kv'' o]; [discriminate|]. cbn [negb]. rewrite Hv.
  destruct v; reflexivity.
Qed.

(** C3 (amended).  [_normalize_orders] (a) returns the empty sequence when
    the orders node is absent; (b) wraps a single order found at the
    collection position into a one-element sequence, the same sequence it
    returns for a collection holding that one order; (c) returns the empty
    sequence, logging one warning and no error, when the node at the
    collection position is neither a mapping nor a sequence; and returns a
    sequence found there as it is, whatever its elements. *)
Theorem normalize_orders_shapes (data : pyval) (st : state) :
  (orders_node data = None -> fst (_normalize_orders data st) = Ok []) /\
  (forall o, order_node data = Some (PDict o) ->
     fst (_normalize_orders data st) = Ok [PDict o] /\
     forall data' st', order_node data' = Some (PList [PDict o]) ->
       fst (_normalize_orders data' st') = fst (_normalize_orders data st)) /\
  (forall v, order_node data = Some v ->
     is_dict v = false -> is_list v = false ->
     fst (_normalize_orders data st) = Ok [] /\
     logs (snd (_normalize_orders data st)) =
       LogRecord WARNING "Tipo de dato inesperado para 'order'" :: logs st) /\
  (forall l, order_node data = Some (PList l) ->
     fst (_normalize_orders data st) = Ok l).
Proof.
  repeat split.
  - apply normalize_orders_absent.
  - now rewrite (normalize_orders_at_node _ _ st H).
  - intros data' st' H'.
    rewrite (normalize_orders_at_node _ _ st H).
    now rewrite (normalize_orders_at_node _ _ st' H').
  - rewrite (normalize_orders_at_node _ _ st H).
    destruct v; try discriminate; reflexivity.
  - rewrite (normalize_orders_at_node _ _ st H).
    destruct v; try discriminate; reflexivity.
  - intros l H. now rewrite (normalize_orders_at_node _ _ st H).
Qed.

(** C4 (amended).  On a list of orders each of which is a mapping whose
    tracking field, when it is a mapping with a "_" entry, holds a string
    there, the filter returns, and returns exactly the orders whose
    tracking field, coerced to text and trimmed, is not empty, each with
    its tracking field in wrapped form and in the order of the input. *)
Theorem filter_keeps_orders_with_tracking (orders : list pyval) (st : state) :
  forallb text_entry_ok orders = true ->
  exists st',
    _filter_orders_with_tracking orders st =
      (Ok (map wrapped
             (filter (fun o => negb (strip (tracking_text o) =? "")) orders)),
       st').
Proof.
  intros Hall. unfold _filter_orders_with_tracking.
  destruct (filter_loop_ok orders Hall [] st) as (st' & E & _).
  rewrite E. exists st'. reflexivity.
Qed.

Lemma filter_loop_after_exact (orders : list pyval) :
  forall acc st,
    fst (filter_loop orders acc st) =
      (map wrapped (examined orders) ++
       skipn (List.length (examined orders)) orders)%list.
Proof.
  induction orders as [|o rest IH]; simpl; intros acc st; [reflexivity|].
  destruct (text_entry_ok o) eqn:Ho.
  - rewrite (filter_order_ok o Ho).
    destruct (negb (strip (tracking_text o) =? "")); simpl.
    + specialize (IH (acc ++ [wrapped o])%list
                    (State (stats st) (trace st)
                       (LogRecord DEBUG "Pedido tiene número de seguimiento"
                          :: logs st))).
      destruct (filter_loop rest _ _) as [rest' r]. simpl in *.
      now rewrite IH.
    + specialize (IH acc
                    (State (stats st) (trace st)
                       (LogRecord DEBUG
                          "Pedido no tiene número de seguimiento, se omite"
                          :: logs st))).
      destruct (filter_loop rest _ _) as [rest' r]. simpl in *.
      now rewrite IH.
  - destruct (filter_order_raise o Ho) as [e E]. rewrite E. reflexivity.
Qed.

Lemma wrapped_changes_unwrapped (order : pyval) :
  text_entry_ok order = true ->
  already_wrapped order = false -> wrapped order <> order.
Proof.
  intros Hok Hw E.
  destruct (wrapped_tracking order Hok) as (d & s & Ew & Es & Et).
  rewrite E in Ew. subst order.
  unfold already_wrapped, dict_mem in Hw. rewrite Es, Et in Hw. discriminate.
Qed.

(** C6 (amended).  The filter rewrites in place the tracking field of
    every order its loop gets through, the rejected ones too, and nothing
    else.  After the call the input list holds those orders with their
    tracking field in wrapped form, followed by the orders the loop did
    not reach, untouched; when the call returns, that is every order of
    the input in wrapped form.  In the wrapped form "shipping_number" is a
    mapping whose "_" entry is the coerced text and every other field is
    unchanged; an order whose tracking field was already a mapping with a
    "_" entry is unchanged, any other order is changed. *)
Theorem filter_rewrites_only_shipping_number (orders : list pyval)
    (st : state) :
  orders_after_filter orders st =
    (map wrapped (examined orders) ++
     skipn (List.length (examined orders)) orders)%list /\
  (forall kept,
      fst (_filter_orders_with_tracking orders st) = Ok kept ->
      orders_after_filter orders st = map wrapped orders) /\
  (forall o,
      text_entry_ok o = true ->
      (exists s,
          field "shipping_number" (wrapped o) = Some (PDict s) /\
          dict_get "_" s = Some (PStr (tracking_text o))) /\
      (forall k, k <> "shipping_number" -> field k (wrapped o) = field k o) /\
      (already_wrapped o = true -> wrapped o = o) /\
      (already_wrapped o = false -> wrapped o <> o)).
Proof.
  split; [|split].
  - apply filter_loop_after_exact.
  - unfold _filter_orders_with_tracking, orders_after_filter. intros kept H.
    destruct (filter_loop orders [] st) as [after [r st']] eqn:E.
    simpl in H. subst r.
    pose proof (filter_loop_returns _ _ _ _ _ _ E) as Hall.
    destruct (filter_loop_ok orders Hall [] st) as (st2 & E2 & _).
    rewrite E in E2. inversion E2; subst. reflexivity.
  - intros o Hok. repeat split.
    + destruct (wrapped_tracking o Hok) as (d & s0 & Ew & Es & Et).
      exists s0. rewrite Ew. simpl. auto.
    + intros k Hk. now apply wrapped_other_fields.
    + apply wrapped_already.
    + now apply wrapped_changes_unwrapped.
Qed.




(** C10.  In every order the filter returns, "shipping_number" is a mapping
    with a "_" entry that is a string whose trimmed form is not empty; so
    [order.get("shipping_number", {}).get("_", "")] does not raise on it
    and is not the empty string. *)
Theorem filtered_shipping_number_shape (orders : list pyval)
    (st : state) kept st' :
  _filter_orders_with_tracking orders st = (Ok kept, st') ->
  forall o, In o kept ->
    exists sn s,
      field "shipping_number" o = Some (PDict sn) /\
      dict_get "_" sn = Some (PStr s) /\
      strip s <> "" /\
      tracking_number_of o = Ok (PStr s) /\
      s <> "".
Proof.
  intros H o' Hin.
  destruct (filter_returns _ _ _ _ H) as (Hall & -> & _).
  apply in_map_iff in Hin as (o & <- & Hf).
  apply filter_In in Hf as [Ho Ht].
  rewrite forallb_forall in Hall. specialize (Hall o Ho).
  destruct (wrapped_tracking o Hall) as (d & sn & Ew & Es & Et).
  assert (Hne : strip (tracking_text o) <> "").
  { unfold has_tracking in Ht. intros E. rewrite E in Ht. discriminate. }
  exists sn, (tracking_text o). rewrite Ew. simpl. repeat split; auto.
  - rewrite <- Ew. now apply tracking_number_of_wrapped.
  - now apply strip_nonempty.
Qed.

(** ** The calls of [process_single_order] *)

Ltac split_match :=
  match goal with
  | |- context [match ?x with _ => _ end] =>
      lazymatch x with
      | context [match _ with _ => _ end] => fail
      | _ => destruct x eqn:?
      end
  end.

Ltac unfold_m :=
  unfold try_except, bind, lift, ret, log, emit, history, get_stats,
    put_stats, append_error;
  cbn [stats trace logs fst snd].

Lemma customer_fields_email data c :
  customer_fields data = Ok c -> exists v, dict_item c "email" = Ok v.
Proof.
  unfold customer_fields, rbind.
  repeat (split_match; try discriminate).
  intros H. inversion H; subst. eexists. reflexivity.
Qed.

Lemma fetch_customer_data_run (w : world) (url : pyval) (st : state) :
  exists answer lg,
    fetch_customer_data w url st =
      (Ok answer,
       State (stats st) (EvFetchCustomer url answer :: trace st) lg) /\
    forall c, answer = Some c -> exists v, dict_item c "email" = Ok v.
Proof.
  unfold fetch_customer_data. unfold_m.
  destruct (customer_api w (trace st) url) as [data|].
  - destruct (customer_fields data) as [c|e] eqn:E.
    + do 2 eexists. split; [reflexivity|].
      intros c' H. inversion H; subst. eapply customer_fields_email; eauto.
    + do 2 eexists. split; [reflexivity|]. discriminate.
  - do 2 eexists. split; [reflexivity|]. discriminate.
Qed.

Lemma fetch_address_data_run (w : world) (url : pyval) (st : state) :
  exists answer lg,
    fetch_address_data w url st =
      (Ok answer,
       State (stats st) (EvFetchAddress url answer :: trace st) lg).
Proof.
  unfold fetch_address_data. unfold_m.
  destruct (address_api w (trace st) url) as [data|].
  - destruct (address_fields data) as [c|e]; do 2 eexists; reflexivity.
  - do 2 eexists; reflexivity.
Qed.

Lemma generate_email_template_run (w : world) d c a (st : state) :
  exists body answer lg,
    generate_email_template w (PDict d) c a st =
      (Ok answer,
       State (stats st)
         (EvRenderTemplate (PDict d) (PDict c) (PDict a) body :: trace st) lg).
Proof.
  unfold generate_email_template. unfold py_get. unfold_m.
  destruct (template_api w (trace st) (PDict d) (PDict c) (PDict a))
    as [body|].
  - destruct (html_of body) as [h|e].
    + destruct (negb (truthy h)); do 3 eexists; reflexivity.
    + do 3 eexists; reflexivity.
  - do 3 eexists; reflexivity.
Qed.

Lemma send_shipment_confirmation_email_run (w : world) e r h (st : state) :
  exists sent lg,
    send_shipment_confirmation_email w e r h st =
      (Ok sent, State (stats st) (EvSendMail e r h sent :: trace st) lg).
Proof.
  unfold send_shipment_confirmation_email. unfold_m.
  destruct (smtp w (trace st) e r h); do 2 eexists; reflexivity.
Qed.

Lemma update_order_state_run (w : world) id n (st : state) :
  exists updated lg,
    update_order_state w id n st =
      (Ok updated,
       State (stats st) (EvUpdateState id n updated :: trace st) lg).
Proof.
  unfold update_order_state. unfold_m.
  destruct (order_histories_api w (trace st) id n); do 2 eexists; reflexivity.
Qed.

(** ** The runs of one order *)

Lemma links_test (order : pyval) :
  negb (truthy (customer_link order)) || negb (truthy (address_link order))
  = negb (both_links order).
Proof.
  unfold both_links.
  now destruct (truthy (customer_link order)), (truthy (address_link order)).
Qed.

Ltac run_call :=
  match goal with
  | |- context [fetch_customer_data ?w ?u ?s] =>
      let a := fresh "customer" in
      let lg := fresh "lg" in
      let E := fresh "E" in
      let H := fresh "Hemail" in
      destruct (fetch_customer_data_run w u s) as (a & lg & E & H);
      rewrite E; clear E; destruct a
  | |- context [fetch_address_data ?w ?u ?s] =>
      let a := fresh "address" in
      let lg := fresh "lg" in
      let E := fresh "E" in
      destruct (fetch_address_data_run w u s) as (a & lg & E);
      rewrite E; clear E; destruct a
  | |- context [generate_email_template ?w (PDict ?d) ?c ?a ?s] =>
      let b := fresh "body" in
      let h := fresh "html" in
      let lg := fresh "lg" in
      let E := fresh "E" in
      destruct (generate_email_template_run w d c a s) as (b & h & lg & E);
      rewrite E; clear E; destruct h
  | |- context [send_shipment_confirmation_email ?w ?e ?r ?h ?s] =>
      let b := fresh "sent" in
      let lg := fresh "lg" in
      let E := fresh "E" in
      destruct (send_shipment_confirmation_email_run w e r h s)
        as (b & lg & E);
      rewrite E; clear E; destruct b
  | |- context [update_order_state ?w ?i ?n ?s] =>
      let b := fresh "updated" in
      let lg := fresh "lg" in
      let E := fresh "E" in
      destruct (update_order_state_run w i n s) as (b & lg & E);
      rewrite E; clear E
  end;
  cbn [stats trace logs fst snd negb].

Lemma process_single_order_runs (w : world) d tn (st : state) :
  tracking_number_of (PDict d) = Ok tn ->
  exists b evs lg,
    process_single_order w (PDict d) st =
      (Ok b, State (stats st) (evs ++ trace st)%list lg) /\
    order_run (PDict d) evs b.
Proof.
  intros Htn. unfold process_single_order. rewrite Htn. unfold py_get.
  unfold_m.
  change (match dict_get "id_customer" d with Some x => x | None => PNone end)
    with (get_or_none "id_customer" (PDict d)).
  change (match dict_get "id_address_delivery" d with
          | Some x => x | None => PNone end)
    with (get_or_none "id_address_delivery" (PDict d)).
  change (match dict_get "id" d with Some x => x | None => PNone end)
    with (get_or_none "id" (PDict d)).
  change (match dict_get "reference" d with Some x => x | None => PNone end)
    with (get_or_none "reference" (PDict d)).
  fold (customer_link (PDict d)). fold (address_link (PDict d)).
  rewrite links_test.
  destruct (both_links (PDict d)) eqn:Hl; cbn [negb].
  2:{ exists false, [], (LogRecord ERROR
                           "Pedido no tiene URLs de cliente o dirección"
                         :: LogRecord INFO "Procesando pedido" :: logs st).
      split; [reflexivity | now constructor]. }
  run_call.
  2:{ exists false, [EvFetchCustomer (customer_link (PDict d)) None].
      eexists. split; [reflexivity | now constructor]. }
  run_call.
  2:{ exists false. eexists [_; _]. eexists.
      split; [reflexivity | now constructor]. }
  run_call.
  2:{ exists false. eexists [_; _; _]. eexists.
      split; [reflexivity | now constructor]. }
  destruct (Hemail _ eq_refl) as [email ->].
  run_call.
  2:{ exists false. eexists [_; _; _; _]. eexists.
      split; [reflexivity | now constructor]. }
  run_call.
  exists true. eexists [_; _; _; _; _].
  destruct updated; cbn [negb stats trace logs];
    eexists; (split; [reflexivity | now constructor]).
Qed.

Lemma process_single_order_raises (w : world) d e (st : state) :
  tracking_number_of (PDict d) = Raise e ->
  process_single_order w (PDict d) st =
    (Ok false,
     State (Statistics (orders_processed (stats st))
              (orders_success (stats st)) (orders_failed (stats st))
              (errors (stats st) ++
               [ErrorEntry (get_or_none "id" (PDict d)) (exn_str e)])%list)
       (trace st)
       (LogRecord ERROR "Error al procesar pedido" :: logs st)).
Proof.
  intros Htn. unfold process_single_order. rewrite Htn. unfold py_get.
  unfold_m. reflexivity.
Qed.

Lemma process_single_order_not_dict (w : world) order (st : state) :
  is_dict order = false ->
  process_single_order w order st =
    (Raise (AttributeError (type_name order) "get"),
     State (stats st) (trace st)
       (LogRecord ERROR "Error al procesar pedido" :: logs st)).
Proof.
  intros H. unfold process_single_order. unfold_m.
  destruct order; try discriminate; reflexivity.
Qed.

(** The three ways through the loop body: the order goes through lines
    54-105 and is counted by its result; or reading its tracking number
    raises, which is recorded and counted as a failure; or the order is
    not a mapping and the exception leaves the loop. *)
Lemma process_order_cases (w : world) (order : pyval) (st : state) :
  (exists b evs lg,
      order_run order evs b /\
      fst (process_single_order w order (snd (count_processed st))) = Ok b /\
      process_order w order st =
        (Ok tt,
         State (Statistics (S (orders_processed (stats st)))
                  (if b then S (orders_success (stats st))
                   else orders_success (stats st))
                  (if b then orders_failed (stats st)
                   else S (orders_failed (stats st)))
                  (errors (stats st)))
           (evs ++ trace st)%list lg)) \/
  (exists e lg,
      process_order w order st =
        (Ok tt,
         State (Statistics (S (orders_processed (stats st)))
                  (orders_success (stats st))
                  (S (orders_failed (stats st)))
                  (errors (stats st) ++
                   [ErrorEntry (get_or_none "id" order) (exn_str e)])%list)
           (trace st) lg)) \/
  (exists e lg,
      process_order w order st =
        (Raise e,
         State (Statistics (S (orders_processed (stats st)))
                  (orders_success (stats st)) (orders_failed (stats st))
                  (errors (stats st)))
           (trace st) lg)).
Proof.
  unfold process_order, count_processed, count_outcome. unfold_m.
  destruct order as [|s|d|l];
    try (right; right;
         rewrite process_single_order_not_dict by reflexivity;
         do 2 eexists; reflexivity).
  destruct (tracking_number_of (PDict d)) as [tn|e] eqn:Htn.
  - left.
    destruct (process_single_order_runs w d tn
                (State (Statistics (S (orders_processed (stats st)))
                          (orders_success (stats st))
                          (orders_failed (stats st)) (errors (stats st)))
                   (trace st) (logs st)) Htn) as (b & evs & lg & E & Hrun).
    rewrite E. cbn [stats trace logs fst snd orders_processed orders_success
                    orders_failed errors].
    exists b, evs, lg. split; [assumption|]. split; [reflexivity|].
    destruct b; reflexivity.
  - right; left. rewrite (process_single_order_raises w d e _ Htn).
    cbn [stats trace logs fst snd orders_processed orders_success
         orders_failed errors].
    do 2 eexists; reflexivity.
Qed.

Lemma order_run_quiet (order : pyval) evs b :
  order_run order evs b ->
  forallb (fun e => negb (is_notification e)) evs = true.
Proof. destruct 1; reflexivity. Qed.

(** C2.  When the mail of an order was sent and the state update that
    follows failed, [process_single_order] still returns true, the loop
    counts the order as a success and not as a failure, and nothing is
    added to the errors. *)
Theorem state_update_failure_keeps_success (w : world) (order : pyval)
    (st : state) r st' evs email reference html id n :
  process_order w order st = (r, st') ->
  trace st' = (evs ++ trace st)%list ->
  In (EvSendMail email reference html true) evs ->
  In (EvUpdateState id n false) evs ->
  r = Ok tt /\
  fst (process_single_order w order (snd (count_processed st))) = Ok true /\
  orders_success (stats st') = S (orders_success (stats st)) /\
  orders_failed (stats st') = orders_failed (stats st) /\
  errors (stats st') = errors (stats st).
Proof.
  intros Hrun Htrace Hsent Hupd.
  destruct (process_order_cases w order st)
    as [(b & evs' & lg & Hr & Hb & E) | [(e & lg & E) | (e & lg & E)]];
    rewrite E in Hrun; inversion Hrun; subst; cbn [trace] in Htrace.
  - apply app_inv_tail in Htrace. subst evs'.
    destruct Hr; simpl in Hsent;
      repeat match goal with
             | H : _ \/ _ |- _ => destruct H
             | H : False |- _ => destruct H
             | H : _ = _ |- _ => discriminate H
             end.
    cbn [stats orders_success orders_failed errors]. repeat split; auto.
  - change (trace st) with ([] ++ trace st)%list in Htrace at 1.
    apply app_inv_tail in Htrace. subst evs. now simpl in Hsent.
  - change (trace st) with ([] ++ trace st)%list in Htrace at 1.
    apply app_inv_tail in Htrace. subst evs. now simpl in Hsent.
Qed.

(** C5 (amended).  For an order that has both links, the customer is
    fetched first.  When that fetch fails nothing else is called, the
    address is not fetched, and the order fails.  When it succeeds the
    address is fetched next, and the order fails, with nothing else
    called, when that fetch fails. *)
Theorem resolver_fetches_in_sequence (w : world) d tn (st : state) :
  tracking_number_of (PDict d) = Ok tn ->
  both_links (PDict d) = true ->
  exists b later customer lg,
    process_single_order w (PDict d) st =
      (Ok b,
       State (stats st)
         (later ++
          EvFetchCustomer (customer_link (PDict d)) customer :: trace st)%list
         lg) /\
    match customer with
    | None => later = [] /\ b = false
    | Some _ =>
        exists rest address,
          later =
            (rest ++ [EvFetchAddress (address_link (PDict d)) address])%list /\
          match address with
          | None => rest = [] /\ b = false
          | Some _ => True
          end
    end.
Proof.
  intros Htn Hl.
  destruct (process_single_order_runs w d tn st Htn)
    as (b & evs & lg & E & Hr).
  rewrite E. clear E.
  destruct Hr as [H | H | c H | c a body H | c a body email html H
                  | c a body email html updated H].
  - congruence.
  - exists false, [], None, lg. repeat split.
  - exists false, [EvFetchAddress (address_link (PDict d)) None], (Some c), lg.
    split; [reflexivity|]. exists [], None. repeat split.
  - exists false. eexists [_; _]. exists (Some c), lg.
    split; [reflexivity|]. eexists [_]. exists (Some a). split; [reflexivity | exact I].
  - exists false. eexists [_; _; _]. exists (Some c), lg.
    split; [reflexivity|]. eexists [_; _]. exists (Some a). split; [reflexivity | exact I].
  - exists true. eexists [_; _; _; _]. exists (Some c), lg.
    split; [reflexivity|]. eexists [_; _; _]. exists (Some a). split; [reflexivity | exact I].
Qed.

(** ** The fetch of the pending orders *)

Lemma normalize_orders_run (data : pyval) (st : state) :
  exists l lg,
    _normalize_orders data st = (Ok l, State (stats st) (trace st) lg).
Proof.
  unfold _normalize_orders, try_except, bind, lift, ret, log.
  destruct data as [|s|d|l]; cbn -[String.eqb dict_get];
    repeat (split_match; cbn -[String.eqb dict_get]);
    do 2 eexists; reflexivity.
Qed.

Lemma filter_loop_frame (orders : list pyval) :
  forall acc st after r st',
    filter_loop orders acc st = (after, (r, st')) ->
    stats st' = stats st /\ trace st' = trace st.
Proof.
  induction orders as [|o rest IH]; simpl; intros acc st after r st' H.
  - inversion H; subst. auto.
  - destruct (filter_order o) as [o' [tv|e]].
    + destruct (negb (tv =? "")); simpl in H;
        destruct (filter_loop rest _ _) as [rest' [r0 st0]] eqn:E in H;
        inversion H; subst; apply IH in E; simpl in E; assumption.
    + inversion H; subst. auto.
Qed.

Lemma wrapped_processable (order : pyval) :
  text_entry_ok order = true -> processable (wrapped order).
Proof.
  intros H. destruct (wrapped_tracking order H) as (d & s & Ew & _).
  exists d, (PStr (tracking_text order)). split; [assumption|].
  now apply tracking_number_of_wrapped.
Qed.

Lemma fetch_pending_shipment_orders_run (w : world) (st : state) :
  exists r lg,
    fetch_pending_shipment_orders w st =
      (Ok r,
       State (stats st) (EvFetchOrders (orders_api w (trace st)) :: trace st)
         lg) /\
    forall orders, r = Some orders -> Forall processable orders.
Proof.
  unfold fetch_pending_shipment_orders. unfold_m.
  destruct (orders_api w (trace st)) as [| | |data].
  - do 2 eexists. split; [reflexivity | discriminate].
  - do 2 eexists. split; [reflexivity|].
    intros orders H. inversion H. constructor.
  - do 2 eexists. split; [reflexivity | discriminate].
  - match goal with
    | |- context [_normalize_orders data ?s] =>
        destruct (normalize_orders_run data s) as (l & lg & E)
    end.
    rewrite E. cbn [stats trace logs].
    unfold _filter_orders_with_tracking.
    match goal with
    | |- context [filter_loop l [] ?s] =>
        destruct (filter_loop l [] s) as [after [r st1]] eqn:Ef
    end.
    pose proof (filter_loop_frame _ _ _ _ _ _ Ef) as [Hs Ht].
    cbn [stats trace logs] in Hs, Ht. cbn [snd].
    destruct st1 as [s1 t1 l1]. cbn [stats trace logs] in *. subst s1 t1.
    destruct r as [kept|e].
    + do 2 eexists. split; [reflexivity|].
      intros orders H. inversion H; subst.
      pose proof (filter_loop_returns _ _ _ _ _ _ Ef) as Hall.
      match type of Ef with
      | filter_loop _ _ ?s = _ =>
          destruct (filter_loop_ok l Hall [] s) as (st2 & E2 & _)
      end.
      rewrite Ef in E2. inversion E2; subst. simpl.
      apply Forall_forall. intros o Hin.
      apply in_map_iff in Hin as (o0 & <- & Hf).
      apply filter_In in Hf as [Ho _].
      apply wrapped_processable.
      rewrite forallb_forall in Hall. now apply Hall.
    + do 2 eexists. split; [reflexivity | discriminate].
Qed.

(** ** The loop over the orders *)

Lemma process_orders_run (w : world) (orders : list pyval) :
  Forall processable orders ->
  forall st, exists s evs lg,
    process_orders w orders st = (Ok tt, State s (evs ++ trace st)%list lg) /\
    forallb (fun e => negb (is_notification e)) evs = true /\
    orders_processed s = List.length orders + orders_processed (stats st).
Proof.
  induction 1 as [|o rest Ho _ IH]; intros st.
  - exists (stats st), [], (logs st). destruct st; simpl. auto.
  - cbn [process_orders]. unfold bind at 1.
    destruct Ho as (d & tn & -> & Htn).
    destruct (process_order_cases w (PDict d) st)
      as [(b & evs & lg & Hr & _ & E) | [(e & lg & E) | (e & lg & E)]].
    + rewrite E.
      match goal with
      | |- context [process_orders w rest ?s] =>
          destruct (IH s) as (s' & evs' & lg' & E' & Hq & Hn)
      end.
      rewrite E'. cbn [stats trace logs orders_processed] in *.
      exists s', (evs' ++ evs)%list, lg'. rewrite <- app_assoc.
      split; [reflexivity|]. split.
      * rewrite forallb_app, Hq. now rewrite (order_run_quiet _ _ _ Hr).
      * simpl. rewrite Hn. lia.
    + exfalso. revert E.
      unfold process_order, count_processed, count_outcome. unfold_m.
      destruct (process_single_order_runs w d tn
                  (State (Statistics (S (orders_processed (stats st)))
                            (orders_success (stats st))
                            (orders_failed (stats st)) (errors (stats st)))
                     (trace st) (logs st)) Htn) as (b & evs & lg0 & E0 & _).
      rewrite E0. cbn [stats errors]. destruct b; intros E; inversion E;
        match goal with
        | H : errors (stats st) = (errors (stats st) ++ _)%list |- _ =>
            apply (f_equal (@List.length _)) in H; rewrite length_app in H;
            simpl in H; lia
        end.
    + exfalso. revert E.
      unfold process_order, count_processed, count_outcome. unfold_m.
      destruct (process_single_order_runs w d tn
                  (State (Statistics (S (orders_processed (stats st)))
                            (orders_success (stats st))
                            (orders_failed (stats st)) (errors (stats st)))
                     (trace st) (logs st)) Htn) as (b & evs & lg0 & E0 & _).
      rewrite E0. destruct b; discriminate.
Qed.

(** ** The run *)

(** An unreachable shop and an undecodable answer both make the fetch
    return [None]. *)
Lemma unreachable_or_unparsable_yields_none (w : world) (st : state) :
  orders_api w (trace st) = TransportError \/
  orders_api w (trace st) = Unparsable ->
  fst (fetch_pending_shipment_orders w st) = Ok None.
Proof.
  unfold fetch_pending_shipment_orders. unfold_m.
  intros [-> | ->]; reflexivity.
Qed.

(** C7.  When the fetch of the pending orders yields no list, the run makes
    one call after the query itself, the critical notification; no order
    is processed and the statistics are those of a new processor, every
    counter zero. *)
Theorem failed_fetch_one_critical_notification (w : world) :
  fst (fetch_pending_shipment_orders w state_at_fetch) = Ok None ->
  exists timestamp,
    trace (run w) =
      [EvNotifyCritical "Error al consultar PrestaShop API"
         "No se pudo conectar con la API de PrestaShop para obtener pedidos pendientes de envío"
         timestamp;
       EvFetchOrders (orders_api w [])] /\
    stats (run w) = initial_stats.
Proof.
  unfold run, process_all_orders_async, notify_critical_error.
  unfold_m. unfold initial_state. cbn [stats trace logs].
  fold state_at_fetch.
  destruct (fetch_pending_shipment_orders_run w state_at_fetch)
    as (r & lg & E & _).
  rewrite E. cbn [fst]. intros H. inversion H; subst.
  cbn [snd stats trace logs]. eexists. split; reflexivity.
Qed.

Lemma send_execution_summary_emits (st : state) :
  1 <= orders_processed (stats st) ->
  send_execution_summary st =
    (Ok tt,
     State (stats st)
       ((if (orders_failed (stats st) =? 0)%nat then
           EvNotifySuccess "Ejecución de envíos completada exitosamente"
             (SummaryMessage (orders_processed (stats st))
                (orders_success (stats st)) (orders_failed (stats st)))
         else
           EvNotifyWarning "Ejecución de envíos completada con errores"
             (SummaryMessage (orders_processed (stats st))
                (orders_success (stats st)) (orders_failed (stats st)))
             (WarningDetails (orders_processed (stats st))
                (orders_success (stats st)) (orders_failed (stats st))
                (firstn 5 (errors (stats st)))))
        :: trace st)
       (logs st)).
Proof.
  intros H. unfold send_execution_summary. unfold_m.
  destruct (orders_processed (stats st)) as [|p]; [lia|]. cbn [Nat.eqb].
  destruct (orders_failed (stats st)) as [|f]; destruct st; reflexivity.
Qed.

(** C8.  Called with at least one order processed, whatever the
    statistics are, [send_execution_summary] issues exactly one
    notification and changes nothing else: the success one when no order
    failed, otherwise the warning one, which carries the first five
    recorded errors in their order (all of them when there are fewer).  A
    run that processed at least one order ends with that call, made on the
    final statistics after calls none of which is a notification, so the
    summary is the last call and the only notification of the run. *)
Theorem one_summary_notification :
  (forall st,
      1 <= orders_processed (stats st) ->
      send_execution_summary st =
        (Ok tt,
         State (stats st)
           ((if (orders_failed (stats st) =? 0)%nat then
               EvNotifySuccess "Ejecución de envíos completada exitosamente"
                 (SummaryMessage (orders_processed (stats st))
                    (orders_success (stats st)) (orders_failed (stats st)))
             else
               EvNotifyWarning "Ejecución de envíos completada con errores"
                 (SummaryMessage (orders_processed (stats st))
                    (orders_success (stats st)) (orders_failed (stats st)))
                 (WarningDetails (orders_processed (stats st))
                    (orders_success (stats st)) (orders_failed (stats st))
                    (firstn 5 (errors (stats st)))))
            :: trace st)
           (logs st))) /\
  (forall w,
      1 <= orders_processed (stats (run w)) ->
      exists st1,
        forallb (fun e => negb (is_notification e)) (trace st1) = true /\
        1 <= orders_processed (stats st1) /\
        stats (run w) = stats st1 /\
        trace (run w) = trace (snd (send_execution_summary st1))).
Proof.
  split; [exact send_execution_summary_emits|].
  intros w.
  unfold run, process_all_orders_async, notify_critical_error.
  unfold_m. unfold initial_state. cbn [stats trace logs].
  fold state_at_fetch.
  destruct (fetch_pending_shipment_orders_run w state_at_fetch)
    as (r & lg & E & Hp).
  rewrite E. destruct r as [[|o rest]|].
  - intros H. simpl in H. lia.
  - match goal with
    | |- context [process_orders w (o :: rest) ?s] =>
        destruct (process_orders_run w (o :: rest) (Hp _ eq_refl) s)
          as (s1 & evs & lg1 & E1 & Hq & Hn)
    end.
    rewrite E1. simpl in Hn. intros _.
    assert (H1 : 1 <= orders_processed s1) by lia.
    match goal with
    | |- context [send_execution_summary ?s] =>
        exists s; rewrite !(send_execution_summary_emits s H1)
    end.
    cbn [snd stats trace logs]. repeat split.
    + rewrite forallb_app, Hq. reflexivity.
    + assumption.
  - intros H. simpl in H. lia.
Qed.

(** ** The statistics and the calls of a run *)

Lemma count_calls_app (p : event -> bool) (a b : list event) :
  count_calls p (a ++ b) = count_calls p a + count_calls p b.
Proof. unfold count_calls. now rewrite filter_app, length_app. Qed.

Lemma order_run_counts (order : pyval) evs b :
  order_run order evs b ->
  count_calls is_sent_mail evs = (if b then 1 else 0) /\
  count_calls is_state_update evs = (if b then 1 else 0) /\
  count_calls is_customer_fetch evs = (if both_links order then 1 else 0) /\
  Forall to_shipped evs.
Proof.
  destruct 1 as [H | H | c H | c a body H | c a body email html H
                 | c a body email html updated H];
    rewrite H; cbn; repeat split; repeat constructor.
Qed.

Lemma process_order_processable (w : world) (order : pyval) (st : state) :
  processable order ->
  exists b evs lg,
    order_run order evs b /\
    process_order w order st =
      (Ok tt,
       State (Statistics (S (orders_processed (stats st)))
                (if b then S (orders_success (stats st))
                 else orders_success (stats st))
                (if b then orders_failed (stats st)
                 else S (orders_failed (stats st)))
                (errors (stats st)))
         (evs ++ trace st)%list lg).
Proof.
  intros (d & tn & -> & Htn).
  unfold process_order, count_processed, count_outcome. unfold_m.
  destruct (process_single_order_runs w d tn
              (State (Statistics (S (orders_processed (stats st)))
                        (orders_success (stats st))
                        (orders_failed (stats st)) (errors (stats st)))
                 (trace st) (logs st)) Htn) as (b & evs & lg & E & Hrun).
  rewrite E. cbn [stats trace logs fst snd orders_processed orders_success
                  orders_failed errors].
  exists b, evs, lg. split; [assumption|]. destruct b; reflexivity.
Qed.

Lemma process_orders_facts (w : world) (orders : list pyval) :
  Forall processable orders ->
  forall st, exists s evs lg,
    process_orders w orders st = (Ok tt, State s (evs ++ trace st)%list lg) /\
    loop_facts orders (stats st) s evs.
Proof.
  induction 1 as [|o rest Ho _ IH]; intros st.
  - exists (stats st), [], (logs st). destruct st; simpl.
    split; [reflexivity|]. constructor; simpl; auto.
  - cbn [process_orders]. unfold bind at 1.
    destruct (process_order_processable w o st Ho)
      as (b & evs & lg & Hr & E).
    rewrite E.
    match goal with
    | |- context [process_orders w rest ?s] =>
        destruct (IH s) as (s' & evs' & lg' & E' & F)
    end.
    rewrite E'. destruct F as [F1 F2 F3 F4 F5 F6 F7 F8].
    cbn [stats trace logs orders_processed orders_success orders_failed
         errors] in *.
    destruct (order_run_counts _ _ _ Hr) as (C1 & C2 & C3 & C4).
    exists s', (evs' ++ evs)%list, lg'. rewrite <- app_assoc.
    split; [reflexivity|].
    constructor; rewrite ?count_calls_app, ?C1, ?C2, ?C3; cbn [List.length filter].
    + lia.
    + destruct b; lia.
    + destruct b; lia.
    + assumption.
    + lia.
    + destruct (both_links o); cbn [List.length]; lia.
    + apply Forall_app. auto.
    + rewrite forallb_app, F8. now rewrite (order_run_quiet _ _ _ Hr).
Qed.

(** The three ways a run can go, by what the fetch of the pending orders
    returns. *)
Lemma run_cases (w : world) :
  exists r lg0,
    fetch_pending_shipment_orders w state_at_fetch =
      (Ok r, State initial_stats [EvFetchOrders (orders_api w [])] lg0) /\
    match r with
    | None =>
        exists timestamp lg,
          run w =
            State initial_stats
              [EvNotifyCritical "Error al consultar PrestaShop API"
                 "No se pudo conectar con la API de PrestaShop para obtener pedidos pendientes de envío"
                 timestamp;
               EvFetchOrders (orders_api w [])] lg
    | Some [] =>
        exists lg,
          run w = State initial_stats [EvFetchOrders (orders_api w [])] lg
    | Some orders =>
        exists s evs n lg,
          run w =
            State s (n :: evs ++ [EvFetchOrders (orders_api w [])])%list lg /\
          is_notification n = true /\
          loop_facts orders initial_stats s evs
    end.
Proof.
  unfold run, process_all_orders_async, notify_critical_error.
  unfold_m. unfold initial_state. cbn [stats trace logs].
  fold state_at_fetch.
  destruct (fetch_pending_shipment_orders_run w state_at_fetch)
    as (r & lg & E & Hp).
  rewrite E. exists r, lg. split; [reflexivity|].
  destruct r as [[|o rest]|].
  - eexists. reflexivity.
  - match goal with
    | |- context [process_orders w (o :: rest) ?s] =>
        destruct (process_orders_facts w (o :: rest) (Hp _ eq_refl) s)
          as (s1 & evs & lg1 & E1 & F)
    end.
    rewrite E1. unfold send_execution_summary. unfold_m.
    pose proof (lf_processed _ _ _ _ F) as Hn. simpl in Hn.
    destruct (orders_processed s1) as [|p] eqn:Hp1; [lia|].
    cbn [Nat.eqb].
    destruct (orders_failed s1) as [|f] eqn:Hf; cbn [Nat.ltb Nat.leb];
      cbn [snd stats trace logs];
      do 4 eexists; (split; [reflexivity|]); split; auto.
  - do 2 eexists. reflexivity.
Qed.

Lemma notification_is_no_order_call (n : event) :
  is_notification n = true ->
  is_sent_mail n = false /\ is_state_update n = false /\
  is_customer_fetch n = false /\ to_shipped n.
Proof. destruct n; try discriminate; repeat split. Qed.

(** X1.  At the end of every run the orders processed are the successes
    plus the failures: each order was counted once, and as one of the two. *)
Theorem run_counts_balance (w : world) :
  orders_processed (stats (run w)) =
    orders_success (stats (run w)) + orders_failed (stats (run w)).
Proof.
  destruct (run_cases w) as (r & lg0 & _ & H).
  destruct r as [[|o rest]|].
  - destruct H as (lg & ->). reflexivity.
  - destruct H as (s & evs & n & lg & -> & _ & F).
    destruct F as [F1 F2 F3 _ _ _ _ _]. cbn [stats].
    cbn [initial_stats orders_processed orders_success orders_failed] in *.
    lia.
  - destruct H as (ts & lg & ->). reflexivity.
Qed.

(** X2.  No run of the processor records an error: the orders the fetch
    returns are mappings with a readable tracking number and every
    collaborator catches what it raises, so the handler that appends to
    the errors is never entered and the list is empty at the end. *)
Theorem run_records_no_error (w : world) :
  errors (stats (run w)) = [].
Proof.
  destruct (run_cases w) as (r & lg0 & _ & H).
  destruct r as [[|o rest]|].
  - destruct H as (lg & ->). reflexivity.
  - destruct H as (s & evs & n & lg & -> & _ & F).
    cbn [stats]. now rewrite (lf_errors _ _ _ _ F).
  - destruct H as (ts & lg & ->). reflexivity.
Qed.

(** X3.  When the fetch returns an empty list the run stops there: its
    only call is the query for the orders, no notification is sent and the
    statistics stay at zero. *)
Theorem no_pending_order_no_call (w : world) :
  fst (fetch_pending_shipment_orders w state_at_fetch) = Ok (Some []) ->
  trace (run w) = [EvFetchOrders (orders_api w [])] /\
  stats (run w) = initial_stats.
Proof.
  destruct (run_cases w) as (r & lg0 & E & H).
  rewrite E. cbn [fst]. intros Hr. inversion Hr; subst.
  destruct H as (lg & ->). split; reflexivity.
Qed.

(** X4.  In every run the mails sent, the state updates requested and the
    successes counted are the same number, and every state update asks for
    state 4: the state of an order is advanced once for each mail that went
    out, and for nothing else. *)
Theorem run_updates_match_mails (w : world) :
  count_calls is_sent_mail (trace (run w)) = orders_success (stats (run w)) /\
  count_calls is_state_update (trace (run w)) =
    orders_success (stats (run w)) /\
  Forall to_shipped (trace (run w)).
Proof.
  destruct (run_cases w) as (r & lg0 & _ & H).
  destruct r as [[|o rest]|].
  - destruct H as (lg & ->). repeat split. repeat constructor.
  - destruct H as (s & evs & n & lg & -> & Hn & F).
    destruct (notification_is_no_order_call n Hn) as (N1 & N2 & _ & N4).
    destruct F as [_ F2 _ _ F5 _ F7 _].
    cbn [stats trace initial_stats orders_success] in *.
    unfold count_calls in *. cbn [filter]. rewrite N1, N2.
    rewrite !filter_app, !length_app. cbn. repeat split; try lia.
    constructor; [assumption|]. apply Forall_app. split; [assumption|].
    repeat constructor.
  - destruct H as (ts & lg & ->). repeat split. repeat constructor.
Qed.

(** X5.  When the fetch returns a list of orders, every one of them is
    processed, and the customer is fetched once for each order that has
    both links: an order without a link costs no fetch, and two orders of
    one customer cost two. *)
Theorem run_fetches_customer_per_order (w : world) (orders : list pyval) :
  fst (fetch_pending_shipment_orders w state_at_fetch) = Ok (Some orders) ->
  orders_processed (stats (run w)) = List.length orders /\
  count_calls is_customer_fetch (trace (run w)) =
    List.length (filter both_links orders).
Proof.
  destruct (run_cases w) as (r & lg0 & E & H).
  rewrite E. cbn [fst]. intros Hr. inversion Hr; subst.
  destruct orders as [|o rest].
  - destruct H as (lg & ->). split; reflexivity.
  - destruct H as (s & evs & n & lg & -> & Hn & F).
    destruct (notification_is_no_order_call n Hn) as (_ & _ & N3 & _).
    destruct F as [F1 _ _ _ _ F6 _ _].
    cbn [stats trace initial_stats orders_processed] in *.
    split; [lia|].
    unfold count_calls in *. cbn [filter]. rewrite N3.
    rewrite filter_app, length_app, F6. cbn. lia.
Qed.

(** ** More on the filter and on the fetch *)

Lemma filter_loop_raises (orders : list pyval) :
  forallb text_entry_ok orders = false ->
  forall acc st, exists e st',
    snd (filter_loop orders acc st) = (Raise e, st').
Proof.
  induction orders as [|o rest IH]; simpl; [discriminate|].
  intros Hall acc st.
  destruct (text_entry_ok o) eqn:Ho.
  - rewrite (filter_order_ok o Ho). simpl in Hall.
    destruct (negb (strip (tracking_text o) =? "")); simpl.
    + match goal with
      | |- context [filter_loop rest ?a ?s] =>
          destruct (IH Hall a s) as (e & st' & E);
          destruct (filter_loop rest a s) as [rest' r]
      end.
      simpl in *. eauto.
    + match goal with
      | |- context [filter_loop rest ?a ?s] =>
          destruct (IH Hall a s) as (e & st' & E);
          destruct (filter_loop rest a s) as [rest' r]
      end.
      simpl in *. eauto.
  - destruct (filter_order_raise o Ho) as [e E]. rewrite E. simpl. eauto.
Qed.

Lemma wrapped_is_wrapped (order : pyval) :
  text_entry_ok order = true ->
  text_entry_ok (wrapped order) = true /\
  already_wrapped (wrapped order) = true /\
  tracking_text (wrapped order) = tracking_text order.
Proof.
  intros H. destruct (wrapped_tracking order H) as (d & s & -> & Es & Et).
  unfold text_entry_ok, already_wrapped, tracking_text, dict_mem.
  rewrite Es, Et. auto.
Qed.

(** X6.  The filter returns a list exactly when every order is a mapping
    whose tracking field, if it is a mapping with a "_" entry, holds a
    string there; one order of another shape makes the whole call raise,
    whatever the other orders are. *)
Theorem filter_returns_iff_well_shaped (orders : list pyval) (st : state) :
  (exists kept, fst (_filter_orders_with_tracking orders st) = Ok kept) <->
  forallb text_entry_ok orders = true.
Proof.
  unfold _filter_orders_with_tracking. split.
  - intros [kept H].
    destruct (filter_loop orders [] st) as [after [r st']] eqn:E.
    simpl in H. subst r. eapply filter_loop_returns; eassumption.
  - intros Hall. destruct (filter_loop_ok orders Hall [] st) as (st' & E & _).
    rewrite E. eexists. reflexivity.
Qed.

Lemma map_fixed {A} (f : A -> A) (l : list A) :
  (forall x, In x l -> f x = x) -> map f l = l.
Proof.
  induction l as [|a l IH]; simpl; intros H; [reflexivity|].
  rewrite H by now left. f_equal. apply IH. intros x Hx. apply H. now right.
Qed.

Lemma filter_all {A} (p : A -> bool) (l : list A) :
  (forall x, In x l -> p x = true) -> filter p l = l.
Proof.
  induction l as [|a l IH]; simpl; intros H; [reflexivity|].
  rewrite H by now left. f_equal. apply IH. intros x Hx. apply H. now right.
Qed.

(** X7.  Filtering is idempotent: the filter applied to a list it returned
    returns that list again, and leaves its orders as they are. *)
Theorem filter_idempotent (orders : list pyval) (st : state) kept st' :
  _filter_orders_with_tracking orders st = (Ok kept, st') ->
  forall st1,
    fst (_filter_orders_with_tracking kept st1) = Ok kept /\
    orders_after_filter kept st1 = kept.
Proof.
  intros H st1. destruct (filter_returns _ _ _ _ H) as (Hall & -> & _).
  rewrite forallb_forall in Hall.
  assert (Hk : forall o, In o (map wrapped (filter has_tracking orders)) ->
                 text_entry_ok o = true /\ wrapped o = o /\
                 has_tracking o = true).
  { intros o' Hin. apply in_map_iff in Hin as (o & <- & Hf).
    apply filter_In in Hf as [Ho Ht].
    destruct (wrapped_is_wrapped o (Hall o Ho)) as (W1 & W2 & W3).
    split; [assumption|]. split; [now apply wrapped_already|].
    unfold has_tracking in *. now rewrite W3. }
  remember (map wrapped (filter has_tracking orders)) as k eqn:Heqk.
  clear Heqk.
  assert (Hok : forallb text_entry_ok k = true).
  { apply forallb_forall. intros o Ho. now apply Hk. }
  assert (Hmap : map wrapped k = k).
  { apply map_fixed. intros o Ho. now apply Hk. }
  assert (Hfil : filter has_tracking k = k).
  { apply filter_all. intros o Ho. now apply Hk. }
  unfold _filter_orders_with_tracking, orders_after_filter.
  destruct (filter_loop_ok k Hok [] st1) as (st2 & E & _).
  rewrite E. cbn [fst snd app]. rewrite Hfil, Hmap. auto.
Qed.

(** X8.  For a decoded document that holds a list of well-shaped orders,
    the fetch returns the orders with a tracking number, in wrapped form
    and in the order of the document: the normalizer and the filter
    composed, with nothing lost in between. *)
Theorem fetch_returns_filtered_orders (w : world) (st : state) data l :
  orders_api w (trace st) = Parsed data ->
  order_node data = Some (PList l) ->
  forallb text_entry_ok l = true ->
  fst (fetch_pending_shipment_orders w st) =
    Ok (Some (map wrapped (filter has_tracking l))).
Proof.
  intros Hapi Hnode Hall.
  unfold fetch_pending_shipment_orders. unfold_m. rewrite Hapi.
  match goal with
  | |- context [_normalize_orders data ?s] =>
      rewrite (normalize_orders_at_node data (PList l) s Hnode)
  end.
  unfold _filter_orders_with_tracking.
  match goal with
  | |- context [filter_loop l [] ?s] =>
      destruct (filter_loop_ok l Hall [] s) as (st' & E & _)
  end.
  rewrite E. reflexivity.
Qed.

(** X9.  One order of a shape the filter cannot read makes the fetch fail
    as a whole: it returns [None], as for an unreachable shop, though the
    other orders of the document are well formed. *)
Theorem malformed_order_fails_fetch (w : world) (st : state) data l :
  orders_api w (trace st) = Parsed data ->
  order_node data = Some (PList l) ->
  forallb text_entry_ok l = false ->
  fst (fetch_pending_shipment_orders w st) = Ok None.
Proof.
  intros Hapi Hnode Hall.
  unfold fetch_pending_shipment_orders. unfold_m. rewrite Hapi.
  match goal with
  | |- context [_normalize_orders data ?s] =>
      rewrite (normalize_orders_at_node data (PList l) s Hnode)
  end.
  unfold _filter_orders_with_tracking.
  match goal with
  | |- context [filter_loop l [] ?s] =>
      destruct (filter_loop_raises l Hall [] s) as (e & st' & E)
  end.
  rewrite E. reflexivity.
Qed.

(** X10.  The normalizer never raises: when the node [prestashop/orders]
    is a true value that is not a mapping, the failed lookup on it is
    caught, logged as an error, and the result is the empty list. *)
Theorem normalize_orders_catches_bad_node (data v : pyval) (st : state) :
  orders_node data = Some v ->
  is_dict v = false ->
  truthy v = true ->
  _normalize_orders data st =
    (Ok [],
     State (stats st) (trace st)
       (LogRecord ERROR "Error al normalizar órdenes" :: logs st)).
Proof.
  unfold orders_node.
  destruct data as [|s|d|l]; try discriminate.
  destruct (dict_get "prestashop" d) as [[|t|p|x]|] eqn:Ep; try discriminate.
  intros Ho Hd Ht. run_normalize.
  destruct d as [|kv d]; [discriminate|]. cbn [negb]. rewrite Ep. simpl.
  destruct p as [|kv' p]; [discriminate|]. cbn [negb]. rewrite Ho.
  rewrite Ht. cbn [negb].
  destruct v; try discriminate; reflexivity.
Qed.

(** ** More on the processing of one order *)

Lemma generate_email_template_html (w : world) d c a (st : state) :
  exists body answer lg,
    generate_email_template w (PDict d) c a st =
      (Ok answer,
       State (stats st)
         (EvRenderTemplate (PDict d) (PDict c) (PDict a) body :: trace st) lg)
    /\
    forall h, answer = Some h ->
      truthy h = true /\ exists b, body = Some b /\ html_of b = Ok h.
Proof.
  unfold generate_email_template. unfold py_get. unfold_m.
  destruct (template_api w (trace st) (PDict d) (PDict c) (PDict a))
    as [body|].
  - destruct (html_of body) as [h|e] eqn:Eh.
    + destruct (truthy h) eqn:Et; cbn [negb]; do 3 eexists;
        (split; [reflexivity|]); intros h' H; inversion H; subst.
      split; [assumption|]. eauto.
    + do 3 eexists. split; [reflexivity|]. discriminate.
  - do 3 eexists. split; [reflexivity|]. discriminate.
Qed.

Ltac no_mail :=
  let Hin := fresh "Hin" in
  intros ? ? ? ? Hin; simpl in Hin;
  repeat (destruct Hin as [Hin | Hin]; [discriminate Hin|]);
  destruct Hin.

(** X11.  Where the mail of an order comes from: every mail call of
    [process_single_order] has the result of the function as its outcome,
    the reference of the order, a true HTML value read from the answer of
    the template service, and as address the email of the customer record
    fetched for the order, after the address record was fetched too. *)
Theorem mail_uses_fetched_customer (w : world) d tn (st : state) :
  tracking_number_of (PDict d) = Ok tn ->
  exists b evs lg,
    process_single_order w (PDict d) st =
      (Ok b, State (stats st) (evs ++ trace st)%list lg) /\
    forall email reference html sent,
      In (EvSendMail email reference html sent) evs ->
      sent = b /\
      reference = get_or_none "reference" (PDict d) /\
      truthy html = true /\
      exists c a body,
        In (EvFetchCustomer (customer_link (PDict d)) (Some c)) evs /\
        dict_get "email" c = Some email /\
        In (EvFetchAddress (address_link (PDict d)) (Some a)) evs /\
        In (EvRenderTemplate (PDict d) (PDict c) (PDict a) (Some body)) evs /\
        html_of body = Ok html.
Proof.
  intros Htn. unfold process_single_order. rewrite Htn. unfold py_get.
  unfold_m.
  change (match dict_get "id_customer" d with Some x => x | None => PNone end)
    with (get_or_none "id_customer" (PDict d)).
  change (match dict_get "id_address_delivery" d with
          | Some x => x | None => PNone end)
    with (get_or_none "id_address_delivery" (PDict d)).
  change (match dict_get "id" d with Some x => x | None => PNone end)
    with (get_or_none "id" (PDict d)).
  change (match dict_get "reference" d with Some x => x | None => PNone end)
    with (get_or_none "reference" (PDict d)).
  fold (customer_link (PDict d)). fold (address_link (PDict d)).
  rewrite links_test.
  destruct (both_links (PDict d)) eqn:Hl; cbn [negb].
  2:{ exists false, []. eexists. split; [reflexivity | no_mail]. }
  run_call.
  2:{ exists false. eexists [_]. eexists. split; [reflexivity | no_mail]. }
  run_call.
  2:{ exists false. eexists [_; _]. eexists.
      split; [reflexivity | no_mail]. }
  match goal with
  | |- context [generate_email_template ?w (PDict ?d) ?c ?a ?s] =>
      destruct (generate_email_template_html w d c a s)
        as (body & html & lg1 & E & Hh);
      rewrite E; clear E; destruct html as [html|]
  end; cbn [stats trace logs fst snd negb].
  2:{ exists false. eexists [_; _; _]. eexists.
      split; [reflexivity | no_mail]. }
  destruct (Hh _ eq_refl) as (Htrue & b0 & -> & Hhtml).
  destruct (Hemail _ eq_refl) as [email Hem]. rewrite Hem.
  assert (Hget : dict_get "email" l = Some email).
  { unfold dict_item in Hem. destruct (dict_get "email" l); inversion Hem.
    reflexivity. }
  run_call.
  - run_call. exists true. eexists [_; _; _; _; _].
    destruct updated; cbn [negb stats trace logs];
      eexists; (split; [reflexivity|]);
      intros e r h s0 Hin; simpl in Hin;
      destruct Hin as [Hin | [Hin | Hin]]; try discriminate Hin;
      try (inversion Hin; subst;
           repeat split; auto;
           exists l, l0, b0; simpl; repeat split; auto 10);
      repeat (destruct Hin as [Hin | Hin]; [discriminate Hin|]);
      destruct Hin.
  - exists false. eexists [_; _; _; _]. eexists. split; [reflexivity|].
    intros e r h s0 Hin; simpl in Hin.
    destruct Hin as [Hin | Hin].
    + inversion Hin; subst. repeat split; auto.
      exists l, l0, b0. simpl. repeat split; auto 10.
    + repeat (destruct Hin as [Hin | Hin]; [discriminate Hin|]).
      destruct Hin.
Qed.

(** X12.  An order without its customer link or without its address link
    fails without a single call to the outside, and the statistics are not
    touched by [process_single_order]. *)
Theorem missing_link_makes_no_call (w : world) d tn (st : state) :
  tracking_number_of (PDict d) = Ok tn ->
  both_links (PDict d) = false ->
  exists lg,
    process_single_order w (PDict d) st =
      (Ok false, State (stats st) (trace st) lg).
Proof.
  intros Htn Hl.
  destruct (process_single_order_runs w d tn st Htn)
    as (b & evs & lg & E & Hr).
  rewrite E. destruct Hr; try congruence. exists lg. reflexivity.
Qed.

(** X13.  An order is a success exactly when its mail went out; the state
    update is requested exactly for a success, once, as the last call, for
    the id of the order and state 4, and its own outcome does not count. *)
Theorem success_iff_mail_sent (w : world) d tn (st : state) :
  tracking_number_of (PDict d) = Ok tn ->
  exists b evs lg,
    process_single_order w (PDict d) st =
      (Ok b, State (stats st) (evs ++ trace st)%list lg) /\
    (b = true <->
     exists email reference html,
       In (EvSendMail email reference html true) evs) /\
    (b = true <->
     exists updated,
       hd_error evs =
         Some (EvUpdateState (get_or_none "id" (PDict d)) 4 updated)) /\
    count_calls is_state_update evs = (if b then 1 else 0).
Proof.
  intros Htn.
  destruct (process_single_order_runs w d tn st Htn)
    as (b & evs & lg & E & Hr).
  exists b, evs, lg. split; [assumption|].
  destruct Hr as [H | H | c H | c a body H | c a body email html H
                  | c a body email html updated H];
    (split; [|split; [|reflexivity]]); split;
    try discriminate;
    try (intros [u Hu]; discriminate Hu);
    try (intros (e & r & h & Hin); simpl in Hin;
         repeat (destruct Hin as [Hin | Hin]; [discriminate Hin|]);
         now destruct Hin);
    intros _; eauto.
  - do 3 eexists. right; left. reflexivity.
  - eexists. reflexivity.
Qed.

(** X14.  When the tracking number of an order cannot be read because its
    "shipping_number" is not a mapping, [process_single_order] makes no
    call, returns false, and records the order in the errors with its id
    and the text of the exception. *)
Theorem unreadable_tracking_is_recorded (w : world) d v (st : state) :
  dict_get "shipping_number" d = Some v ->
  is_dict v = false ->
  process_single_order w (PDict d) st =
    (Ok false,
     State (Statistics (orders_processed (stats st))
              (orders_success (stats st)) (orders_failed (stats st))
              (errors (stats st) ++
               [ErrorEntry (get_or_none "id" (PDict d))
                  ("'" ++ type_name v ++ "' object has no attribute 'get'")])%list)
       (trace st)
       (LogRecord ERROR "Error al procesar pedido" :: logs st)).
Proof.
  intros Hsn Hv.
  rewrite (process_single_order_raises w d (AttributeError (type_name v) "get")).
  - reflexivity.
  - unfold tracking_number_of, py_get, rbind. rewrite Hsn.
    destruct v; try discriminate; reflexivity.
Qed.

Lemma run_returns (w : world) :
  fst (process_all_orders_async w initial_state) = Ok tt.
Proof.
  unfold process_all_orders_async, notify_critical_error.
  unfold_m. unfold initial_state. cbn [stats trace logs].
  fold state_at_fetch.
  destruct (fetch_pending_shipment_orders_run w state_at_fetch)
    as (r & lg & E & Hp).
  rewrite E. destruct r as [[|o rest]|]; try reflexivity.
  match goal with
  | |- context [process_orders w (o :: rest) ?s] =>
      destruct (process_orders_facts w (o :: rest) (Hp _ eq_refl) s)
        as (s1 & evs & lg1 & E1 & F)
  end.
  rewrite E1. unfold send_execution_summary. unfold_m.
  destruct (orders_processed s1 =? 0)%nat; [reflexivity|].
  destruct (0 <? orders_failed s1)%nat; reflexivity.
Qed.

Lemma quiet_calls_hold_no_notification (evs : list event) :
  forallb (fun e => negb (is_notification e)) evs = true ->
  count_calls is_notification evs = 0.
Proof.
  unfold count_calls. induction evs as [|e evs IH]; simpl; [reflexivity|].
  intros H. apply andb_prop in H as [He Hr].
  destruct (is_notification e); [discriminate|]. now apply IH.
Qed.

(** X21.  Every run returns normally, whatever the outside answers; its
    first call is the query for the pending orders, and it sends at most
    one notification. *)
Theorem run_returns_with_one_notification_at_most (w : world) :
  fst (process_all_orders_async w initial_state) = Ok tt /\
  (exists later,
      trace (run w) = (later ++ [EvFetchOrders (orders_api w [])])%list) /\
  count_calls is_notification (trace (run w)) <= 1.
Proof.
  split; [apply run_returns|].
  destruct (run_cases w) as (r & lg0 & _ & H).
  destruct r as [[|o rest]|].
  - destruct H as (lg & ->). split; [exists []; reflexivity|]. cbn. lia.
  - destruct H as (s & evs & n & lg & -> & Hn & F). cbn [trace]. split.
    + exists (n :: evs). reflexivity.
    + unfold count_calls. cbn [filter]. rewrite Hn. cbn [List.length].
      rewrite filter_app, length_app.
      pose proof (quiet_calls_hold_no_notification evs (lf_quiet _ _ _ _ F))
        as Hq.
      unfold count_calls in Hq. rewrite Hq. cbn. lia.
  - destruct H as (ts & lg & ->). split; [eexists [_]; reflexivity|].
    cbn. lia.
Qed.

End Pipeline.

(** ** Closed examples: the scenarios of the spec on sample data *)

(** C1.  The run of two orders, the first going through and the second
    lacking its address link, ends with two orders processed, one success
    and one failure, and with no entry in the errors: the failure of the
    second order is counted and logged but not recorded. *)
Theorem missing_link_failure_not_recorded :
  stats (run plain_repr (world_ok (PList [order_10; order_11]))) =
    Statistics 2 1 1 [].
Proof. vm_compute. reflexivity. Qed.

Lemma state_update_failure_keeps_success_witness :
  fst (process_order (world_no_update order_10) order_10 initial_state) =
    Ok tt /\
  fst (process_single_order (world_no_update order_10) order_10
         (snd (count_processed initial_state))) = Ok true /\
  orders_success
    (stats (snd (process_order (world_no_update order_10) order_10
                   initial_state))) =
    S (orders_success (stats initial_state)) /\
  orders_failed
    (stats (snd (process_order (world_no_update order_10) order_10
                   initial_state))) =
    orders_failed (stats initial_state) /\
  errors
    (stats (snd (process_order (world_no_update order_10) order_10
                   initial_state))) =
    errors (stats initial_state).
Proof.
  apply (state_update_failure_keeps_success
           (world_no_update order_10) order_10 initial_state
           (fst (process_order (world_no_update order_10) order_10
                   initial_state))
           (snd (process_order (world_no_update order_10) order_10
                   initial_state))
           (trace (snd (process_order (world_no_update order_10) order_10
                          initial_state)))
           (PStr "ana@example.org") (PStr "A100") (PStr "<html></html>")
           (PStr "10") 4).
  - apply surjective_pairing.
  - vm_compute. reflexivity.
  - vm_compute. right; left; reflexivity.
  - vm_compute. left; reflexivity.
Defined.

Lemma normalize_orders_shapes_witness :
  fst (_normalize_orders (document order_10) initial_state) = Ok [order_10] /\
  fst (_normalize_orders (document (PList [order_10])) initial_state) =
    fst (_normalize_orders (document order_10) initial_state) /\
  fst (_normalize_orders (document PNone) initial_state) = Ok [] /\
  fst (_normalize_orders (PDict [("prestashop", PDict [("x", PNone)])])
         initial_state) = Ok [].
Proof.
  pose proof (normalize_orders_shapes (document order_10) initial_state)
    as (_ & Hb & _).
  pose proof (normalize_orders_shapes (document PNone) initial_state)
    as (_ & _ & Hc & _).
  pose proof (normalize_orders_shapes
                (PDict [("prestashop", PDict [("x", PNone)])]) initial_state)
    as (Ha & _).
  destruct (Hb order_10_fields eq_refl) as [H1 H2].
  split; [exact H1|].
  split; [exact (H2 (document (PList [order_10])) initial_state eq_refl)|].
  split; [exact (proj1 (Hc PNone eq_refl eq_refl eq_refl))|].
  exact (Ha eq_refl).
Defined.

(** C3, as stated, fails: a sequence of strings at the collection position
    is neither a mapping nor a sequence of mappings, and it is returned as
    it is, not as the empty sequence. *)
Lemma normalize_orders_keeps_non_mappings :
  order_node (document (PList [PStr "a"; PStr "b"])) =
    Some (PList [PStr "a"; PStr "b"]) /\
  forallb is_dict [PStr "a"; PStr "b"] = false /\
  fst (_normalize_orders (document (PList [PStr "a"; PStr "b"]))
         initial_state) = Ok [PStr "a"; PStr "b"] /\
  fst (_normalize_orders (document (PList [PStr "a"; PStr "b"]))
         initial_state) <> Ok [].
Proof. repeat split. discriminate. Qed.

Lemma filter_keeps_orders_with_tracking_witness :
  forallb text_entry_ok [order_bare; order_10; order_blanks] = true /\
  exists st',
    _filter_orders_with_tracking plain_repr
      [order_bare; order_10; order_blanks] initial_state =
      (Ok [order_10;
           PDict [("id", PStr "13");
                  ("shipping_number", PDict [("_", PStr " TRK123 ")])]],
       st').
Proof.
  split; [reflexivity|].
  exact (filter_keeps_orders_with_tracking plain_repr
           [order_bare; order_10; order_blanks] initial_state eq_refl).
Defined.

(** C4, as stated, fails: on a list holding an order whose wrapped tracking
    text is [None] the filter returns no sequence at all; it raises. *)
Lemma filter_raises_on_none_text :
  fst (_filter_orders_with_tracking plain_repr [order_10; order_none_text]
         initial_state) =
    Raise (AttributeError "NoneType" "strip") /\
  ~ exists kept,
      fst (_filter_orders_with_tracking plain_repr
             [order_10; order_none_text] initial_state) = Ok kept.
Proof.
  split; [reflexivity|]. intros [kept H]. discriminate H.
Qed.

Lemma resolver_fetches_in_sequence_witness :
  both_links order_10 = true /\
  exists b later customer lg,
    process_single_order (world_no_customer order_10) order_10 initial_state =
      (Ok b,
       State initial_stats
         (later ++ [EvFetchCustomer (PStr "/customers/5") customer])%list lg) /\
    match customer with
    | None => later = [] /\ b = false
    | Some _ =>
        exists rest address,
          later = (rest ++ [EvFetchAddress (PStr "/addresses/7") address])%list /\
          match address with
          | None => rest = [] /\ b = false
          | Some _ => True
          end
    end.
Proof.
  split; [reflexivity|].
  exact (resolver_fetches_in_sequence (world_no_customer order_10)
           order_10_fields (PStr "TRK123") initial_state eq_refl eq_refl).
Defined.

(** C5, as stated, fails: the order has both links, the customer cannot be
    fetched, and the fetch of the address is not attempted. *)
Lemma failed_customer_fetch_stops_resolver :
  both_links order_10 = true /\
  trace (snd (process_single_order (world_no_customer order_10) order_10
                initial_state)) =
    [EvFetchCustomer (PStr "/customers/5") None] /\
  ~ exists url answer,
      In (EvFetchAddress url answer)
         (trace (snd (process_single_order (world_no_customer order_10)
                        order_10 initial_state))).
Proof.
  repeat split. intros (url & answer & [H | []]). discriminate H.
Qed.

(** C6, as stated, fails: the order without a tracking field is rejected,
    and the filter has added a "shipping_number" field to it. *)
Lemma filter_mutates_rejected_order :
  fst (_filter_orders_with_tracking plain_repr [order_bare] initial_state) =
    Ok [] /\
  orders_after_filter plain_repr [order_bare] initial_state =
    [PDict [("id", PStr "12"); ("shipping_number", PDict [("_", PStr "")])]] /\
  orders_after_filter plain_repr [order_bare] initial_state <> [order_bare].
Proof. repeat split. discriminate. Qed.

Lemma failed_fetch_one_critical_notification_witness :
  fst (fetch_pending_shipment_orders plain_repr world_down state_at_fetch) =
    Ok None /\
  exists timestamp,
    trace (run plain_repr world_down) =
      [EvNotifyCritical "Error al consultar PrestaShop API"
         "No se pudo conectar con la API de PrestaShop para obtener pedidos pendientes de envío"
         timestamp;
       EvFetchOrders TransportError] /\
    stats (run plain_repr world_down) = initial_stats.
Proof.
  split; [reflexivity|].
  exact (failed_fetch_one_critical_notification plain_repr world_down eq_refl).
Defined.

Lemma one_summary_notification_witness :
  send_execution_summary state_six_errors =
    (Ok tt,
     State (stats state_six_errors)
       [EvNotifyWarning "Ejecución de envíos completada con errores"
          (SummaryMessage 7 1 6)
          (WarningDetails 7 1 6
             (map sample_error ["21"; "22"; "23"; "24"; "25"]))]
       []) /\
  exists st1,
    forallb (fun e => negb (is_notification e)) (trace st1) = true /\
    1 <= orders_processed (stats st1) /\
    stats (run plain_repr (world_ok (PList [order_10; order_11]))) =
      stats st1 /\
    trace (run plain_repr (world_ok (PList [order_10; order_11]))) =
      trace (snd (send_execution_summary st1)).
Proof.
  split.
  - assert (H : 1 <= orders_processed (stats state_six_errors))
      by (vm_compute; repeat constructor).
    exact (proj1 (one_summary_notification plain_repr) state_six_errors H).
  - assert (H : 1 <= orders_processed
                       (stats (run plain_repr
                                 (world_ok (PList [order_10; order_11])))))
      by (vm_compute; repeat constructor).
    exact (proj2 (one_summary_notification plain_repr)
             (world_ok (PList [order_10; order_11])) H).
Defined.

Lemma filtered_shipping_number_shape_witness :
  exists sn s,
    field "shipping_number" order_10 = Some (PDict sn) /\
    dict_get "_" sn = Some (PStr s) /\
    strip s <> "" /\
    tracking_number_of order_10 = Ok (PStr s) /\
    s <> "".
Proof.
  apply (filtered_shipping_number_shape plain_repr [order_bare; order_10]
           initial_state [order_10]
           (snd (_filter_orders_with_tracking plain_repr
                   [order_bare; order_10] initial_state))).
  - reflexivity.
  - simpl. auto.
Defined.

(** ** Closed examples for the further properties *)

Lemma no_pending_order_no_call_witness :
  fst (fetch_pending_shipment_orders plain_repr (world_ok (PList []))
         state_at_fetch) = Ok (Some []) /\
  (trace (run plain_repr (world_ok (PList []))) =
     [EvFetchOrders (orders_api (world_ok (PList [])) [])] /\
   stats (run plain_repr (world_ok (PList []))) = initial_stats).
Proof.
  assert (H : fst (fetch_pending_shipment_orders plain_repr
                     (world_ok (PList [])) state_at_fetch) = Ok (Some []))
    by (vm_compute; reflexivity).
  split; [exact H|].
  exact (no_pending_order_no_call plain_repr (world_ok (PList [])) H).
Defined.

Lemma run_fetches_customer_per_order_witness :
  fst (fetch_pending_shipment_orders plain_repr
         (world_ok (PList [order_10; order_11; order_10])) state_at_fetch) =
    Ok (Some [order_10; order_11; order_10]) /\
  (orders_processed
     (stats (run plain_repr
               (world_ok (PList [order_10; order_11; order_10])))) =
     List.length [order_10; order_11; order_10] /\
   count_calls is_customer_fetch
     (trace (run plain_repr
               (world_ok (PList [order_10; order_11; order_10])))) =
     List.length (filter both_links [order_10; order_11; order_10])).
Proof.
  assert (H : fst (fetch_pending_shipment_orders plain_repr
                     (world_ok (PList [order_10; order_11; order_10]))
                     state_at_fetch) =
              Ok (Some [order_10; order_11; order_10]))
    by (vm_compute; reflexivity).
  split; [exact H|].
  exact (run_fetches_customer_per_order plain_repr
           (world_ok (PList [order_10; order_11; order_10]))
           [order_10; order_11; order_10] H).
Defined.

Lemma mail_uses_fetched_customer_witness :
  tracking_number_of (PDict order_10_fields) = Ok (PStr "TRK123") /\
  exists b evs lg,
    process_single_order (world_ok order_10) (PDict order_10_fields)
      initial_state =
      (Ok b, State (stats initial_state) (evs ++ trace initial_state)%list lg)
    /\
    forall email reference html sent,
      In (EvSendMail email reference html sent) evs ->
      sent = b /\
      reference = get_or_none "reference" (PDict order_10_fields) /\
      truthy html = true /\
      exists c a body,
        In (EvFetchCustomer (customer_link (PDict order_10_fields)) (Some c))
           evs /\
        dict_get "email" c = Some email /\
        In (EvFetchAddress (address_link (PDict order_10_fields)) (Some a))
           evs /\
        In (EvRenderTemplate (PDict order_10_fields) (PDict c) (PDict a)
              (Some body)) evs /\
        html_of body = Ok html.
Proof.
  split; [reflexivity|].
  exact (mail_uses_fetched_customer (world_ok order_10) order_10_fields
           (PStr "TRK123") initial_state eq_refl).
Defined.

Lemma missing_link_makes_no_call_witness :
  tracking_number_of order_11 = Ok (PStr "TRK456") /\
  both_links order_11 = false /\
  exists lg,
    process_single_order (world_ok order_11) order_11 initial_state =
      (Ok false, State (stats initial_state) (trace initial_state) lg).
Proof.
  split; [reflexivity|]. split; [reflexivity|].
  exact (missing_link_makes_no_call (world_ok order_11)
           [("id", PStr "11"); ("reference", PStr "A101");
            ("shipping_number", PDict [("_", PStr "TRK456")]);
            ("id_customer", link "/customers/5")]
           (PStr "TRK456") initial_state eq_refl eq_refl).
Defined.

Lemma success_iff_mail_sent_witness :
  tracking_number_of (PDict order_10_fields) = Ok (PStr "TRK123") /\
  exists b evs lg,
    process_single_order (world_no_update order_10) (PDict order_10_fields)
      initial_state =
      (Ok b, State (stats initial_state) (evs ++ trace initial_state)%list lg)
    /\
    (b = true <->
     exists email reference html,
       In (EvSendMail email reference html true) evs) /\
    (b = true <->
     exists updated,
       hd_error evs =
         Some (EvUpdateState (get_or_none "id" (PDict order_10_fields)) 4
                 updated)) /\
    count_calls is_state_update evs = (if b then 1 else 0).
Proof.
  split; [reflexivity|].
  exact (success_iff_mail_sent (world_no_update order_10) order_10_fields
           (PStr "TRK123") initial_state eq_refl).
Defined.

Lemma unreadable_tracking_is_recorded_witness :
  errors
    (stats
       (snd (process_single_order (world_ok order_blanks)
               (PDict [("id", PStr "13"); ("shipping_number", PStr " TRK123 ")])
               initial_state))) =
    [ErrorEntry (PStr "13") "'str' object has no attribute 'get'"].
Proof.
  rewrite (unreadable_tracking_is_recorded (world_ok order_blanks)
             [("id", PStr "13"); ("shipping_number", PStr " TRK123 ")]
             (PStr " TRK123 ") initial_state eq_refl eq_refl).
  reflexivity.
Defined.

(** ** Strings: trimming and commas *)

Lemma append_nil_r (s : string) : s ++ "" = s.
Proof. induction s as [|c r IH]; simpl; [reflexivity | now rewrite IH]. Qed.

Lemma append_assoc (a b c : string) : (a ++ b) ++ c = a ++ (b ++ c).
Proof. induction a as [|x r IH]; simpl; [reflexivity | now rewrite IH]. Qed.

Lemma string_length_append (a b : string) :
  String.length (a ++ b) = String.length a + String.length b.
Proof. induction a as [|x r IH]; simpl; [reflexivity | now rewrite IH]. Qed.

Lemma substring_length (n : nat) :
  forall s, n <= String.length s -> String.length (substring 0 n s) = n.
Proof.
  induction n as [|n IH]; intros s H.
  - destruct s; reflexivity.
  - destruct s as [|c r]; simpl in *; [lia|]. rewrite IH; lia.
Qed.

Lemma string_rev_append (a b : string) :
  string_rev (a ++ b) = string_rev b ++ string_rev a.
Proof.
  induction a as [|x r IH]; simpl.
  - now rewrite append_nil_r.
  - now rewrite IH, append_assoc.
Qed.

Lemma string_rev_involutive (s : string) : string_rev (string_rev s) = s.
Proof.
  induction s as [|c r IH]; simpl; [reflexivity|].
  rewrite string_rev_append, IH. reflexivity.
Qed.

Lemma lstrip_shape (s : string) :
  lstrip s = "" \/ exists c r, lstrip s = String c r /\ is_space c = false.
Proof.
  induction s as [|c r IH]; simpl; [now left|].
  destruct (is_space c) eqn:E; [assumption|]. right. eauto.
Qed.

Lemma lstrip_fixed (c : ascii) (r : string) :
  is_space c = false -> lstrip (String c r) = String c r.
Proof. intros H. simpl. now rewrite H. Qed.

Lemma lstrip_idem (s : string) : lstrip (lstrip s) = lstrip s.
Proof.
  destruct (lstrip_shape s) as [-> | (c & r & -> & H)]; [reflexivity|].
  now apply lstrip_fixed.
Qed.

Lemma rstrip_idem (s : string) : rstrip (rstrip s) = rstrip s.
Proof. unfold rstrip. now rewrite string_rev_involutive, lstrip_idem. Qed.

Lemma lstrip_keeps_last (x : string) (c : ascii) :
  is_space c = false ->
  exists y, lstrip (x ++ String c "") = y ++ String c "".
Proof.
  intros H. induction x as [|a r IH]; simpl.
  - rewrite H. exists "". reflexivity.
  - destruct (is_space a); [assumption|]. exists (String a r). reflexivity.
Qed.

Lemma rstrip_keeps_head (c : ascii) (r : string) :
  is_space c = false -> exists r', rstrip (String c r) = String c r'.
Proof.
  intros H. unfold rstrip. simpl.
  destruct (lstrip_keeps_last (string_rev r) c H) as [y ->].
  rewrite string_rev_append. simpl. eauto.
Qed.

Lemma strip_idem (s : string) : strip (strip s) = strip s.
Proof.
  unfold strip.
  destruct (lstrip_shape s) as [-> | (c & r & -> & H)]; [reflexivity|].
  destruct (rstrip_keeps_head c r H) as [r' E].
  rewrite E at 1. rewrite (lstrip_fixed c r' H). rewrite <- E.
  apply rstrip_idem.
Qed.

Lemma has_comma_append (a b : string) :
  has_comma (a ++ b) = has_comma a || has_comma b.
Proof.
  induction a as [|x r IH]; simpl; [reflexivity|].
  now rewrite IH, orb_assoc.
Qed.

Lemma has_comma_rev (s : string) : has_comma (string_rev s) = has_comma s.
Proof.
  induction s as [|c r IH]; simpl; [reflexivity|].
  rewrite has_comma_append, IH. simpl. rewrite orb_false_r. apply orb_comm.
Qed.

Lemma has_comma_lstrip (s : string) :
  has_comma s = false -> has_comma (lstrip s) = false.
Proof.
  induction s as [|c r IH]; simpl; [reflexivity|].
  intros H. apply orb_false_elim in H as [Hc Hr].
  destruct (is_space c); [now apply IH|]. simpl. now rewrite Hc, Hr.
Qed.

Lemma has_comma_strip (s : string) :
  has_comma s = false -> has_comma (strip s) = false.
Proof.
  intros H. unfold strip, rstrip. rewrite has_comma_rev.
  apply has_comma_lstrip. rewrite has_comma_rev. now apply has_comma_lstrip.
Qed.

Lemma split_comma_no_comma (s : string) :
  forall e, In e (NotificationManager.split_comma s) -> has_comma e = false.
Proof.
  induction s as [|c r IH]; simpl; intros e H.
  - destruct H as [<- | []]. reflexivity.
  - destruct (Ascii.eqb c ",") eqn:Ec.
    + destruct H as [<- | H]; [reflexivity | now apply IH].
    + destruct (NotificationManager.split_comma r) as [|h t].
      * destruct H as [<- | []]. simpl. now rewrite Ec.
      * destruct H as [<- | H].
        -- simpl. rewrite Ec. apply IH. now left.
        -- apply IH. now right.
Qed.

(** ** Properties of [notifications.py] and of the addressing of the mail *)

(** X15.  Every address [_parse_email_list] returns is non-empty, has no
    white space at either end and holds no comma: blank entries of the
    configured list are dropped and the others trimmed. *)
Theorem parse_email_list_clean (email_string e : string) :
  In e (NotificationManager._parse_email_list email_string) ->
  e <> "" /\ strip e = e /\ has_comma e = false.
Proof.
  unfold NotificationManager._parse_email_list.
  destruct (email_string =? ""); [intros []|].
  intros H. apply in_map_iff in H as (x & <- & Hx).
  apply filter_In in Hx as [Hin Hne].
  split; [|split].
  - intros E. rewrite E in Hne. discriminate.
  - apply strip_idem.
  - apply has_comma_strip. eapply split_comma_no_comma; eassumption.
Qed.

(** X16.  The text of the details block of a Slack payload is never longer
    than 2000 characters: a text within the bound is kept as it is, a
    longer one is cut to its first 1997 characters followed by three dots. *)
Theorem limit_details_bound (details_text : string) :
  String.length (NotificationManager.limit_details details_text) <= 2000 /\
  (String.length details_text <= 2000 ->
   NotificationManager.limit_details details_text = details_text) /\
  (2000 < String.length details_text ->
   NotificationManager.limit_details details_text =
     substring 0 1997 details_text ++ "..." /\
   String.length (NotificationManager.limit_details details_text) = 2000).
Proof.
  unfold NotificationManager.limit_details.
  destruct (Nat.ltb_spec 2000 (String.length details_text)) as [H | H].
  - assert (E : String.length (substring 0 1997 details_text ++ "...") = 2000).
    { rewrite string_length_append, substring_length by lia.
      change (String.length "...") with 3. lia. }
    rewrite E. repeat split; try lia.
  - repeat split; try lia.
Qed.

(** X17.  An informative notification (the success summary of a run)
    reaches the mail channel only when Slack did not deliver it, and then
    the mail goes to the configured recipients with the warning prefix in
    its subject. *)
Theorem info_mail_only_after_slack_failure
    (self : NotificationManager.config) (ch : NotificationManager.channels)
    (title message type : string) rc subject :
  In (NotificationManager.MailTo rc subject)
     (snd (NotificationManager.send_info_notification self ch title message
             type)) ->
  fst (NotificationManager.send_slack_notification self ch
         (title ++ ": " ++ message) false type) = false /\
  NotificationManager.email_enabled self = true /\
  rc = NotificationManager.notification_emails self /\
  subject = "[ADVERTENCIA] - Confirmación de Envíos: " ++ title.
Proof.
  unfold NotificationManager.send_info_notification.
  destruct (fst (NotificationManager.send_slack_notification self ch
                   (title ++ ": " ++ message) false type)) eqn:Es;
    cbn [negb fst snd].
  - unfold NotificationManager.send_slack_notification.
    destruct (NotificationManager.slack_enabled self); cbn [negb snd];
      intros H; simpl in H; [destruct H as [H | []]; discriminate H | destruct H].
  - intros H. apply in_app_or in H as [H | H].
    + unfold NotificationManager.send_slack_notification in H.
      destruct (NotificationManager.slack_enabled self); simpl in H;
        [destruct H as [H | []]; discriminate H | destruct H].
    + unfold NotificationManager.send_email_notification in H.
      destruct (NotificationManager.email_enabled self); simpl in H;
        [|destruct H].
      destruct H as [H | []]. inversion H; subst. auto.
Qed.

Lemma validate_config_flags (c : NotificationManager.config) :
  NotificationManager.notification_emails
    (fst (NotificationManager._validate_config c)) =
    NotificationManager.notification_emails c /\
  (NotificationManager.email_enabled
     (fst (NotificationManager._validate_config c)) = true ->
   truthy (NotificationManager.sender_email c) = true /\
   truthy (NotificationManager.sender_password c) = true /\
   NotificationManager.notification_emails c <> []) /\
  (NotificationManager.slack_enabled
     (fst (NotificationManager._validate_config c)) = true ->
   NotificationManager.webhook_url c <> "").
Proof.
  destruct c as [ee se sp ne sl wu chn un].
  unfold NotificationManager._validate_config.
  cbn [NotificationManager.email_enabled NotificationManager.sender_email
       NotificationManager.sender_password
       NotificationManager.notification_emails
       NotificationManager.slack_enabled NotificationManager.webhook_url
       NotificationManager.channel NotificationManager.username].
  destruct ee, (truthy se), (truthy sp), ne as [|n ne], sl; cbn;
    destruct (wu =? "") eqn:Ew; cbn;
    repeat split; intros; try discriminate; try reflexivity;
    apply String.eqb_neq; assumption.
Qed.

Lemma mail_attempt_enabled (self : NotificationManager.config) ch subj crit a :
  In a (snd (NotificationManager.send_email_notification self ch subj crit)) ->
  NotificationManager.email_enabled self = true /\
  exists subject,
    a = NotificationManager.MailTo
          (NotificationManager.notification_emails self) subject.
Proof.
  unfold NotificationManager.send_email_notification.
  destruct (NotificationManager.email_enabled self); cbn; [|intros []].
  intros [<- | []]. eauto.
Qed.

Lemma slack_attempt_enabled (self : NotificationManager.config) ch msg crit ty
    a :
  In a (snd (NotificationManager.send_slack_notification self ch msg crit ty))
  ->
  NotificationManager.slack_enabled self = true /\
  a = NotificationManager.SlackPost msg ty crit.
Proof.
  unfold NotificationManager.send_slack_notification.
  destruct (NotificationManager.slack_enabled self); cbn; [|intros []].
  intros [<- | []]. auto.
Qed.

(** X18.  After [_validate_config] no notification contacts a channel
    whose configuration is incomplete: a critical, informative or warning
    notification hands a mail over only if the sender, its password and at
    least one recipient are configured, and posts to Slack only if the
    webhook URL is not empty. *)
Theorem validated_channels_are_configured
    (c : NotificationManager.config) (ch : NotificationManager.channels)
    (title message type : string) (a : NotificationManager.attempt) :
  In a (snd (NotificationManager.send_critical_notification
               (fst (NotificationManager._validate_config c)) ch title
               message)) \/
  In a (snd (NotificationManager.send_info_notification
               (fst (NotificationManager._validate_config c)) ch title
               message type)) \/
  In a (snd (NotificationManager.notify_warning
               (fst (NotificationManager._validate_config c)) ch title
               message)) ->
  match a with
  | NotificationManager.MailTo rc _ =>
      truthy (NotificationManager.sender_email c) = true /\
      truthy (NotificationManager.sender_password c) = true /\
      rc = NotificationManager.notification_emails c /\ rc <> []
  | NotificationManager.SlackPost _ _ _ =>
      NotificationManager.webhook_url c <> ""
  end.
Proof.
  intros H.
  destruct (validate_config_flags c) as (Hne & Hmail & Hslack).
  assert (Hcase :
            (exists subj crit,
                In a (snd (NotificationManager.send_email_notification
                             (fst (NotificationManager._validate_config c))
                             ch subj crit))) \/
            (exists msg crit ty,
                In a (snd (NotificationManager.send_slack_notification
                             (fst (NotificationManager._validate_config c))
                             ch msg crit ty)))).
  { destruct H as [H | [H | H]].
    - unfold NotificationManager.send_critical_notification in H.
      cbn [snd] in H. apply in_app_or in H as [H | H]; eauto 6.
    - unfold NotificationManager.send_info_notification in H.
      destruct (negb _) in H; cbn [snd] in H;
        [apply in_app_or in H as [H | H]|]; eauto 6.
    - unfold NotificationManager.notify_warning in H.
      cbn [snd] in H. apply in_app_or in H as [H | H]; eauto 6. }
  destruct Hcase as [(subj & crit & Hin) | (msg & crit & ty & Hin)].
  - apply mail_attempt_enabled in Hin as (He & subject & ->).
    destruct (Hmail He) as (H1 & H2 & H3).
    rewrite Hne. auto.
  - apply slack_attempt_enabled in Hin as (He & ->). auto.
Qed.

(** X19.  In development mode the shipment mail never reaches the customer
    nor the blind-copy address: it is addressed to the test address alone,
    whatever the customer's email is, and without a test address nothing
    is sent. *)
Theorem development_mail_goes_to_test_address
    (self : EmailService.config) (customer_email : pyval) a :
  EmailService.environment self = "development" ->
  EmailService.addressing_of self customer_email = Some a ->
  truthy (EmailService.dev_test_email self) = true /\
  EmailService.to_header a = EmailService.dev_test_email self /\
  EmailService.bcc_header a = None /\
  EmailService.recipients a = [EmailService.dev_test_email self].
Proof.
  unfold EmailService.addressing_of. intros ->. cbn.
  destruct (truthy (EmailService.dev_test_email self)); cbn;
    [|discriminate].
  intros H. inversion H; subst. cbn. auto.
Qed.

(** X20.  Outside development mode the shipment mail is addressed to the
    customer; the blind copy is added only in production mode with a
    blind-copy address configured, and then both as the "Bcc" header and
    as a recipient of the transport, never as one without the other. *)
Theorem bcc_only_in_production
    (self : EmailService.config) (customer_email : pyval) a :
  EmailService.environment self <> "development" ->
  EmailService.addressing_of self customer_email = Some a ->
  EmailService.to_header a = customer_email /\
  (EmailService.bcc_header a = Some (EmailService.bcc_email self) /\
   EmailService.recipients a = [customer_email; EmailService.bcc_email self]
   /\
   EmailService.environment self = "production" /\
   truthy (EmailService.bcc_email self) = true
   \/
   EmailService.bcc_header a = None /\
   EmailService.recipients a = [customer_email] /\
   (EmailService.environment self <> "production" \/
    truthy (EmailService.bcc_email self) = false)).
Proof.
  unfold EmailService.addressing_of. intros Hdev.
  apply String.eqb_neq in Hdev. rewrite Hdev.
  intros H. inversion H; subst. cbn. split; [reflexivity|].
  destruct (EmailService.environment self =? "production") eqn:Ep;
    [apply String.eqb_eq in Ep | apply String.eqb_neq in Ep];
    destruct (truthy (EmailService.bcc_email self)); cbn; auto 10.
Qed.

Lemma parse_email_list_clean_witness :
  In "a@example.org"
     (NotificationManager._parse_email_list " a@example.org , ,b@example.org")
  /\
  ("a@example.org" <> "" /\ strip "a@example.org" = "a@example.org" /\
   has_comma "a@example.org" = false).
Proof.
  assert (H : In "a@example.org"
                 (NotificationManager._parse_email_list
                    " a@example.org , ,b@example.org"))
    by (vm_compute; left; reflexivity).
  split; [exact H|].
  exact (parse_email_list_clean " a@example.org , ,b@example.org"
           "a@example.org" H).
Defined.

Lemma info_mail_only_after_slack_failure_witness :
  In (NotificationManager.MailTo ["ops@example.org"]
        "[ADVERTENCIA] - Confirmación de Envíos: Ejecución de envíos completada exitosamente")
     (snd (NotificationManager.send_info_notification notifier_ok
             channels_slack_down "Ejecución de envíos completada exitosamente"
             "resumen" "success")) /\
  (fst (NotificationManager.send_slack_notification notifier_ok
          channels_slack_down
          ("Ejecución de envíos completada exitosamente" ++ ": " ++ "resumen")
          false "success") = false /\
   NotificationManager.email_enabled notifier_ok = true /\
   ["ops@example.org"] = NotificationManager.notification_emails notifier_ok /\
   "[ADVERTENCIA] - Confirmación de Envíos: Ejecución de envíos completada exitosamente" =
     "[ADVERTENCIA] - Confirmación de Envíos: " ++
     "Ejecución de envíos completada exitosamente").
Proof.
  assert (H : In (NotificationManager.MailTo ["ops@example.org"]
                    "[ADVERTENCIA] - Confirmación de Envíos: Ejecución de envíos completada exitosamente")
                 (snd (NotificationManager.send_info_notification notifier_ok
                         channels_slack_down
                         "Ejecución de envíos completada exitosamente"
                         "resumen" "success")))
    by (vm_compute; right; left; reflexivity).
  split; [exact H|].
  exact (info_mail_only_after_slack_failure notifier_ok channels_slack_down
           "Ejecución de envíos completada exitosamente" "resumen" "success"
           ["ops@example.org"]
           "[ADVERTENCIA] - Confirmación de Envíos: Ejecución de envíos completada exitosamente"
           H).
Defined.

Lemma validated_channels_are_configured_witness :
  truthy (NotificationManager.sender_email notifier_ok) = true /\
  truthy (NotificationManager.sender_password notifier_ok) = true /\
  ["ops@example.org"] = NotificationManager.notification_emails notifier_ok /\
  ["ops@example.org"] <> [].
Proof.
  apply (validated_channels_are_configured notifier_ok channels_slack_down
           "Ejecución de envíos completada con errores" "resumen" "warning"
           (NotificationManager.MailTo ["ops@example.org"]
              "[ADVERTENCIA] - Confirmación de Envíos: Ejecución de envíos completada con errores")).
  right; right. vm_compute. left; reflexivity.
Defined.

Lemma development_mail_goes_to_test_address_witness :
  EmailService.addressing_of mailer_development (PStr "ana@example.org") =
    Some (EmailService.Addressing (PStr "test@example.org") None
            [PStr "test@example.org"]) /\
  EmailService.recipients
    (EmailService.Addressing (PStr "test@example.org") None
       [PStr "test@example.org"]) =
    [EmailService.dev_test_email mailer_development].
Proof.
  split; [reflexivity|].
  exact (proj2 (proj2 (proj2
           (development_mail_goes_to_test_address mailer_development
              (PStr "ana@example.org")
              (EmailService.Addressing (PStr "test@example.org") None
                 [PStr "test@example.org"])
              eq_refl eq_refl)))).
Defined.

Lemma bcc_only_in_production_witness :
  EmailService.addressing_of mailer_production (PStr "ana@example.org") =
    Some (EmailService.Addressing (PStr "ana@example.org")
            (Some (PStr "bcc@example.org"))
            [PStr "ana@example.org"; PStr "bcc@example.org"]) /\
  EmailService.to_header
    (EmailService.Addressing (PStr "ana@example.org")
       (Some (PStr "bcc@example.org"))
       [PStr "ana@example.org"; PStr "bcc@example.org"]) =
    PStr "ana@example.org".
Proof.
  split; [reflexivity|].
  refine (proj1 (bcc_only_in_production mailer_production
                   (PStr "ana@example.org")
                   (EmailService.Addressing (PStr "ana@example.org")
                      (Some (PStr "bcc@example.org"))
                      [PStr "ana@example.org"; PStr "bcc@example.org"])
                   _ eq_refl)).
  discriminate.
Defined.

Lemma filter_idempotent_witness :
  _filter_orders_with_tracking plain_repr [order_bare; order_10; order_blanks]
    initial_state =
    (Ok [order_10;
         PDict [("id", PStr "13");
                ("shipping_number", PDict [("_", PStr " TRK123 ")])]],
     snd (_filter_orders_with_tracking plain_repr
            [order_bare; order_10; order_blanks] initial_state)) /\
  (fst (_filter_orders_with_tracking plain_repr
          [order_10;
           PDict [("id", PStr "13");
                  ("shipping_number", PDict [("_", PStr " TRK123 ")])]]
          initial_state) =
     Ok [order_10;
         PDict [("id", PStr "13");
                ("shipping_number", PDict [("_", PStr " TRK123 ")])]] /\
   orders_after_filter plain_repr
     [order_10;
      PDict [("id", PStr "13");
             ("shipping_number", PDict [("_", PStr " TRK123 ")])]]
     initial_state =
     [order_10;
      PDict [("id", PStr "13");
             ("shipping_number", PDict [("_", PStr " TRK123 ")])]]).
Proof.
  assert (H : _filter_orders_with_tracking plain_repr
                [order_bare; order_10; order_blanks] initial_state =
              (Ok [order_10;
                   PDict [("id", PStr "13");
                          ("shipping_number", PDict [("_", PStr " TRK123 ")])]],
               snd (_filter_orders_with_tracking plain_repr
                      [order_bare; order_10; order_blanks] initial_state)))
    by (vm_compute; reflexivity).
  split; [exact H|].
  exact (filter_idempotent plain_repr [order_bare; order_10; order_blanks]
           initial_state _ _ H initial_state).
Defined.

Lemma fetch_returns_filtered_orders_witness :
  fst (fetch_pending_shipment_orders plain_repr
         (world_ok (PList [order_bare; order_10])) initial_state) =
    Ok (Some (map (wrapped plain_repr)
                (filter (has_tracking plain_repr) [order_bare; order_10]))).
Proof.
  exact (fetch_returns_filtered_orders plain_repr
           (world_ok (PList [order_bare; order_10])) initial_state
           (document (PList [order_bare; order_10])) [order_bare; order_10]
           eq_refl eq_refl eq_refl).
Defined.

Lemma malformed_order_fails_fetch_witness :
  fst (fetch_pending_shipment_orders plain_repr
         (world_ok (PList [order_10; order_none_text])) initial_state) =
    Ok None.
Proof.
  exact (malformed_order_fails_fetch plain_repr
           (world_ok (PList [order_10; order_none_text])) initial_state
           (document (PList [order_10; order_none_text]))
           [order_10; order_none_text] eq_refl eq_refl eq_refl).
Defined.

Lemma normalize_orders_catches_bad_node_witness :
  _normalize_orders (PDict [("prestashop", PDict [("orders", PStr "x")])])
    initial_state =
    (Ok [],
     State (stats initial_state) (trace initial_state)
       (LogRecord ERROR "Error al normalizar órdenes" :: logs initial_state)).
Proof.
  exact (normalize_orders_catches_bad_node
           (PDict [("prestashop", PDict [("orders", PStr "x")])]) (PStr "x")
           initial_state eq_refl eq_refl eq_refl).
Defined.

Lemma filter_rewrites_only_shipping_number_witness :
  fst (_filter_orders_with_tracking plain_repr [order_bare; order_10]
         initial_state) = Ok [order_10] /\
  orders_after_filter plain_repr [order_bare; order_10] initial_state =
    map (wrapped plain_repr) [order_bare; order_10] /\
  map (wrapped plain_repr) [order_bare; order_10] =
    [PDict [("id", PStr "12"); ("shipping_number", PDict [("_", PStr "")])];
     order_10].
Proof.
  assert (H : fst (_filter_orders_with_tracking plain_repr
                     [order_bare; order_10] initial_state) = Ok [order_10])
    by (vm_compute; reflexivity).
  split; [exact H|]. split; [|reflexivity].
  exact (proj1 (proj2 (filter_rewrites_only_shipping_number plain_repr
                         [order_bare; order_10] initial_state))
           [order_10] H).
Defined.



